(** * express-docker-demo: the /db-check handler and its browser client

    A shallow embedding of [src/index.js] (the Express API with its
    Postgres probe) and of [public/app.js] (the page script that shows
    the probe's answer), together with the properties of the status
    handler and of the presentation client.

    Layout:
    - [Js]      : the fragment of JavaScript the two programs run on:
                  values, property reads that may throw, JSON.stringify;
    - [Express] : the response object ([res.status], [res.json]);
    - [Server]  : [src/index.js];
    - [Client]  : [public/app.js];
    - the theorems, one group per program. *)

From Stdlib Require Import ZArith String Ascii List DecimalString Lia.
From stdpp Require Import gmap strings.

Set Warnings "-register-all".
Local Open Scope string_scope.
Local Open Scope Z_scope.

(* ===================================================================== *)
(** ** JavaScript values *)
(* ===================================================================== *)

Module Js.

(** The values the handler and the client can meet.  [Num] holds the
    integer-valued numbers (status codes, counts); [Date iso text] is a
    valid Date object, named by the texts its [toISOString] and its
    [toString] return (node-postgres hands back a Date for [NOW()]);
    [Err name message own] is an Error
    object: [name] and [message] are not enumerable, [own] lists its
    other, enumerable own properties ([code], [errno], ...).  A string
    is its sequence of code units, each below 256.  [Obj props] lists
    the properties of a plain object in the order [OwnPropertyKeys] gives
    them; a key is read at its first occurrence. *)
Inductive value : Type :=
| Undefined
| Null
| Bool (b : bool)
| Num (n : Z)
| Str (s : string)
| Date (iso text : string)
| Arr (items : list value)
| Obj (props : list (string * value))
| Err (name message : string) (own : list (string * value)).

(** The result of evaluating an expression: a value, or a thrown one. *)
Inductive completion (A : Type) : Type :=
| Normal (a : A)
| Throw (e : value).
Arguments Normal {A} a.
Arguments Throw {A} e.

Definition is_nullish (v : value) : bool :=
  match v with
  | Undefined | Null => true
  | _ => false
  end.

(** [typeof]-like rendering used inside the engine's TypeError texts. *)
Definition nullish_name (v : value) : string :=
  match v with
  | Null => "null"
  | _ => "undefined"
  end.

Definition TypeError (message : string) : value :=
  Err "TypeError" message [].

(** V8's texts (the image runs node:20). *)
Definition cannot_read (v : value) (k : string) : string :=
  "Cannot read properties of " +:+ nullish_name v +:+
  " (reading '" +:+ k +:+ "')".

Definition cannot_destructure (v : value) (k : string) : string :=
  "Cannot destructure property '" +:+ k +:+
  "' of '(intermediate value)' as it is " +:+ nullish_name v +:+ ".".

Fixpoint lookup_prop (k : string) (props : list (string * value)) : value :=
  match props with
  | [] => Undefined
  | (k', v) :: rest => if String.eqb k k' then v else lookup_prop k rest
  end.

(** A property key that is a canonical array index ("0", "1", "42", not
    "01" or "+1") names that element. *)
Definition index_of_key (k : string) : option nat :=
  match NilZero.uint_of_string k with
  | Some u =>
      let n := Nat.of_uint u in
      if String.eqb (NilZero.string_of_uint (Nat.to_uint n)) k
      then Some n else None
  | None => None
  end.

Fixpoint char_at (s : string) (i : nat) : value :=
  match s, i with
  | EmptyString, _ => Undefined
  | String c _, O => Str (String c EmptyString)
  | String _ s', S i' => char_at s' i'
  end.

(** The value of [v[k]] for a non-nullish [v] (methods of the prototypes
    are not modelled: neither program reads one off a probe result). *)
Definition get_defined (v : value) (k : string) : value :=
  match v with
  | Obj props => lookup_prop k props
  | Err name message own =>
      if String.eqb k "message" then Str message
      else if String.eqb k "name" then Str name
      else lookup_prop k own
  | Arr items =>
      match index_of_key k with
      | Some i => nth i items Undefined
      | None =>
          if String.eqb k "length" then Num (Z.of_nat (List.length items))
          else Undefined
      end
  | Str s =>
      match index_of_key k with
      | Some i => char_at s i
      | None =>
          if String.eqb k "length" then Num (Z.of_nat (String.length s))
          else Undefined
      end
  | _ => Undefined
  end.

(** [v.k] and [v[k]]: reading off [undefined] or [null] throws. *)
Definition get (v : value) (k : string) : completion value :=
  if is_nullish v then Throw (TypeError (cannot_read v k))
  else Normal (get_defined v k).

(** [const { k } = v]. *)
Definition destructure (v : value) (k : string) : completion value :=
  if is_nullish v then Throw (TypeError (cannot_destructure v k))
  else Normal (get_defined v k).

(** *** JSON.stringify *)

Definition dquote : ascii := ascii_of_nat 34.
Definition backslash : ascii := ascii_of_nat 92.

Definition str1 (c : ascii) : string := String c EmptyString.

Definition hex_digit (n : nat) : ascii :=
  if (n <? 10)%nat then ascii_of_nat (48 + n) else ascii_of_nat (87 + n).

(** One code unit inside a JSON string literal (QuoteJSONString). *)
Definition escape_char (c : ascii) : string :=
  let n := nat_of_ascii c in
  if Ascii.eqb c dquote then String backslash (str1 dquote)
  else if Ascii.eqb c backslash then String backslash (str1 backslash)
  else if (n =? 8)%nat then String backslash "b"
  else if (n =? 12)%nat then String backslash "f"
  else if (n =? 10)%nat then String backslash "n"
  else if (n =? 13)%nat then String backslash "r"
  else if (n =? 9)%nat then String backslash "t"
  else if (n <? 32)%nat then
    String backslash ("u00" +:+ str1 (hex_digit (n / 16)) +:+ str1 (hex_digit (n mod 16)))
  else str1 c.

Fixpoint escape (s : string) : string :=
  match s with
  | EmptyString => EmptyString
  | String c s' => escape_char c +:+ escape s'
  end.

Definition quote (s : string) : string :=
  String dquote (escape s +:+ str1 dquote).

Definition decimal (n : Z) : string :=
  NilZero.string_of_int (Z.to_int n).

Fixpoint join (sep : string) (parts : list string) : string :=
  match parts with
  | [] => EmptyString
  | [p] => p
  | p :: rest => p +:+ sep +:+ join sep rest
  end.

Definition newline : string := str1 (ascii_of_nat 10).

(** The closing steps of SerializeJSONObject and SerializeJSONArray:
    [stepback] is the indentation outside, [indent] the one inside. *)
Definition wrap (opening closing gap stepback indent : string)
    (partial : list string) : string :=
  match partial with
  | [] => opening +:+ closing
  | _ =>
      if String.eqb gap EmptyString
      then opening +:+ join "," partial +:+ closing
      else opening +:+ newline +:+ indent +:+
           join ("," +:+ newline +:+ indent) partial +:+
           newline +:+ stepback +:+ closing
  end.

Definition member (gap key strP : string) : string :=
  quote key +:+ ":" +:+
  (if String.eqb gap EmptyString then EmptyString else " ") +:+ strP.

(** SerializeJSONProperty, with no replacer: [None] is [undefined]. *)
Fixpoint serialize (gap indent : string) (v : value) : option string :=
  let inner := indent +:+ gap in
  let members :=
    fix members (ps : list (string * value)) : list string :=
      match ps with
      | [] => []
      | (k, x) :: ps' =>
          match serialize gap inner x with
          | Some strP => member gap k strP :: members ps'
          | None => members ps'
          end
      end in
  match v with
  | Undefined => None
  | Null => Some "null"
  | Bool b => Some (if b then "true" else "false")
  | Num n => Some (decimal n)
  | Str s => Some (quote s)
  | Date iso _ => Some (quote iso)
  | Arr items =>
      Some (wrap "[" "]" gap indent inner
              (List.map (fun x => default "null" (serialize gap inner x)) items))
  | Obj props => Some (wrap "{" "}" gap indent inner (members props))
  | Err _ _ own => Some (wrap "{" "}" gap indent inner (members own))
  end.

Fixpoint spaces (n : nat) : string :=
  match n with
  | O => EmptyString
  | S n' => String " " (spaces n')
  end.

(** [JSON.stringify(v)] and [JSON.stringify(v, null, n)] for [n <= 10]. *)
Definition stringify (v : value) : option string :=
  serialize EmptyString EmptyString v.

Definition stringify_spaces (n : nat) (v : value) : option string :=
  serialize (spaces (Nat.min n 10)) EmptyString v.

(** *** ToString *)

Definition has_key (k : string) (props : list (string * value)) : bool :=
  existsb (fun p => String.eqb k (fst p)) props.

Definition not_primitive : value :=
  TypeError "Cannot convert object to primitive value".

(** [String(v)].  No value of the model is callable, so an own property
    named toString hides the inherited method and the conversion throws. *)
Fixpoint to_string (v : value) : completion string :=
  match v with
  | Undefined => Normal "undefined"
  | Null => Normal "null"
  | Bool b => Normal (if b then "true" else "false")
  | Num n => Normal (decimal n)
  | Str s => Normal s
  | Date _ text => Normal text
  | Arr items =>
      match
        (fix elements (xs : list value) : completion (list string) :=
           match xs with
           | [] => Normal []
           | x :: xs' =>
               match (if is_nullish x then Normal EmptyString else to_string x) with
               | Normal s =>
                   match elements xs' with
                   | Normal l => Normal (s :: l)
                   | Throw e => Throw e
                   end
               | Throw e => Throw e
               end
           end) items
      with
      | Normal l => Normal (join "," l)
      | Throw e => Throw e
      end
  | Obj props =>
      if has_key "toString" props then Throw not_primitive
      else Normal "[object Object]"
  | Err name message own =>
      if has_key "toString" own then Throw not_primitive
      else if String.eqb name EmptyString then Normal message
      else if String.eqb message EmptyString then Normal name
      else Normal (name +:+ ": " +:+ message)
  end.

(** Conversion to a nullable DOMString, read back as text: [null] and
    [undefined] give the empty text. *)
Definition to_text (v : value) : completion string :=
  if is_nullish v then Normal EmptyString else to_string v.

Definition of_option (o : option string) : value :=
  match o with
  | Some s => Str s
  | None => Undefined
  end.

(** [a === b] for a string literal [b]. *)
Definition is_string (v : value) (lit : string) : bool :=
  match v with
  | Str s => String.eqb s lit
  | _ => false
  end.

Definition is_error (v : value) : bool :=
  match v with
  | Err _ _ _ => true
  | _ => false
  end.

End Js.

(* ===================================================================== *)
(** ** Effects: a state and exception monad *)
(* ===================================================================== *)

(** A statement runs on a state [S] and either completes or throws; what
    it wrote before throwing stays written. *)
Definition M (S A : Type) : Type := S -> Js.completion A * S.

#[export] Instance M_ret {S} : MRet (M S) :=
  fun A (a : A) st => (Js.Normal a, st).

#[export] Instance M_bind {S} : MBind (M S) :=
  fun A B (k : A -> M S B) (m : M S A) st =>
    match m st with
    | (Js.Normal a, st') => k a st'
    | (Js.Throw e, st') => (Js.Throw e, st')
    end.

#[export] Instance completion_ret : MRet Js.completion :=
  fun A (a : A) => Js.Normal a.

#[export] Instance completion_bind : MBind Js.completion :=
  fun A B (k : A -> Js.completion B) (c : Js.completion A) =>
    match c with
    | Js.Normal a => k a
    | Js.Throw e => Js.Throw e
    end.

(** An expression that touches no state. *)
Definition eval {S A} (c : Js.completion A) : M S A := fun st => (c, st).

Definition throw {S A} (e : Js.value) : M S A := eval (Js.Throw e).

Definition modify {S} (f : S -> S) : M S unit :=
  fun st => (Js.Normal tt, f st).

(** [try { body } catch (error) { handler }]. *)
Definition try_catch {S A} (body : M S A) (handler : Js.value -> M S A) : M S A :=
  fun st =>
    match body st with
    | (Js.Normal a, st') => (Js.Normal a, st')
    | (Js.Throw e, st') => handler e st'
    end.

(** A promise once it has settled, and [await] on it. *)
Inductive Settled (A : Type) : Type :=
| Resolved (result : A)
| Rejected (reason : Js.value).
Arguments Resolved {A} result.
Arguments Rejected {A} reason.

Definition await {S A} (p : Settled A) : M S A :=
  match p with
  | Resolved result => mret result
  | Rejected reason => throw reason
  end.

(** What [console.error] has printed: one entry per call, its arguments. *)
Definition Console : Type := list (list Js.value).

(* ===================================================================== *)
(** ** The Express response object *)
(* ===================================================================== *)

Module Express.

(** [payload] is the value handed to [res.json], [body] the text sent. *)
Record Res : Type := {
  statusCode : Z;
  contentType : option string;
  payload : option Js.value;
  body : option string
}.

(** The response a handler is given: nothing sent, and the status 200 that
    a response of node's http module starts with. *)
Definition fresh : Res :=
  {| statusCode := 200; contentType := None; payload := None; body := None |}.

(** [res.status(code)] *)
Definition status (code : Z) (res : Res) : Res :=
  {| statusCode := code; contentType := contentType res;
     payload := payload res; body := body res |}.

(** [res.json(obj)], on a response that has not been sent yet: the text
    of [JSON.stringify(obj)] is sent, as application/json unless a
    Content-Type was set before. *)
Definition json (obj : Js.value) (res : Res) : Res :=
  {| statusCode := statusCode res;
     contentType :=
       Some (default "application/json; charset=utf-8" (contentType res));
     payload := Some obj;
     body := Some (default EmptyString (Js.stringify obj)) |}.

End Express.

(* ===================================================================== *)
(** ** src/index.js *)
(* ===================================================================== *)

Module Server.

(** The names read from [process.env] (after [dotenv.config()] has added
    the entries of .env), each with its default.  A variable of the
    environment is a string; the defaults of [PORT] and [DB_PORT] are
    numbers. *)
Record Config : Type := {
  PORT : Js.value;
  DB_HOST : string;
  DB_PORT : Js.value;
  DB_USER : string;
  DB_PASSWORD : string;
  DB_NAME : string
}.

Definition load_env (env : gmap string string) : Config :=
  {| PORT := default (Js.Num 3000) (Js.Str <$> env !! "PORT");
     DB_HOST := default "localhost" (env !! "DB_HOST");
     DB_PORT := default (Js.Num 5432) (Js.Str <$> env !! "DB_PORT");
     DB_USER := default "postgres" (env !! "DB_USER");
     DB_PASSWORD := default "postgres" (env !! "DB_PASSWORD");
     DB_NAME := default "postgres" (env !! "DB_NAME") |}.

(** What one run of a handler can write: its response and the console. *)
Record HState : Type := {
  res : Express.Res;
  console : Console
}.

Definition res_status (code : Z) : M HState unit :=
  modify (fun st => {| res := Express.status code (res st); console := console st |}).

Definition res_json (obj : Js.value) : M HState unit :=
  modify (fun st => {| res := Express.json obj (res st); console := console st |}).

Definition console_error (args : list Js.value) : M HState unit :=
  modify (fun st => {| res := res st; console := (console st ++ [args])%list |}).

Definition probe_sql : string := "SELECT NOW() AS server_time".

(** [app.get("/", ...)] *)
Definition landing : M HState unit :=
  res_json (Js.Obj [("message", Js.Str "Express Docker demo API");
                    ("endpoints", Js.Arr [Js.Str "/api/hello"; Js.Str "/db-check"])]).

(** [app.get("/api/hello", ...)] *)
Definition hello : M HState unit :=
  res_json (Js.Obj [("message", Js.Str "Hello World from Dockerized Express!")]).

(** [app.get("/db-check", async (req, res) => ...)], from the point where
    the promise of [pool.query(probe_sql)] has settled as [probe]. *)
Definition db_check (cfg : Config) (probe : Settled Js.value) : M HState unit :=
  try_catch
    (result ← await probe;
     rows ← eval (Js.destructure result "rows");
     row ← eval (Js.get rows "0");
     server_time ← eval (Js.get row "server_time");
     res_json (Js.Obj [("status", Js.Str "ok");
                       ("database", Js.Str (DB_NAME cfg));
                       ("serverTime", server_time)]))
    (fun error =>
       console_error [Js.Str "Database check failed"; error];;
       res_status 500;;
       message ← eval (Js.get error "message");
       res_json (Js.Obj [("status", Js.Str "error");
                         ("message", message)])).

(** The handler of one request: a fresh response, the console so far. *)
Definition initial (log : Console) : HState :=
  {| res := Express.fresh; console := log |}.

(** *** The process: one pool, one console, many requests *)

Section Process.

(** The connection pool belongs to node-postgres: all the program sees
    of it is what [pool.query] settles to, and that it may change. *)
Context {Pool : Type}.
Variable query : string -> Pool -> Settled Js.value * Pool.

(** What lives as long as the process and can change. *)
Record Proc : Type := {
  pool : Pool;
  stderr : Console
}.

(** One GET /db-check, from the call of [pool.query] to the end of the
    handler: how the handler completed and the response it left. *)
Definition request (cfg : Config) (p : Proc)
  : (Js.completion unit * Express.Res) * Proc :=
  let (probe, pool') := query probe_sql (pool p) in
  let (c, st) := db_check cfg probe (initial (stderr p)) in
  ((c, res st), {| pool := pool'; stderr := console st |}).

Fixpoint serve (cfg : Config) (n : nat) (p : Proc)
  : list (Js.completion unit * Express.Res) * Proc :=
  match n with
  | O => ([], p)
  | S n' =>
      let (r, p1) := request cfg p in
      let (rs, p2) := serve cfg n' p1 in
      (r :: rs, p2)
  end.

(** What the pool answers to [n] probes in a row, and the pool after. *)
Fixpoint probes (n : nat) (pl : Pool) : list (Settled Js.value) * Pool :=
  match n with
  | O => ([], pl)
  | S n' =>
      let (probe, pl1) := query probe_sql pl in
      let (rest, pl2) := probes n' pl1 in
      (probe :: rest, pl2)
  end.

End Process.

End Server.

(* ===================================================================== *)
(** ** The page: DOM nodes *)
(* ===================================================================== *)

Module Dom.

(** Of an element, the script touches the class list (an ordered set of
    tokens) and the text. *)
Record Node : Type := {
  classList : list string;
  textContent : string
}.

Definition contains (token : string) (n : Node) : bool :=
  existsb (String.eqb token) (classList n).

(** [node.classList.remove(...tokens)] *)
Definition remove (tokens : list string) (n : Node) : Node :=
  {| classList :=
       List.filter (fun c => negb (existsb (String.eqb c) tokens)) (classList n);
     textContent := textContent n |}.

(** [node.classList.add(token)] *)
Definition add (token : string) (n : Node) : Node :=
  {| classList :=
       if contains token n then classList n
       else (classList n ++ [token])%list;
     textContent := textContent n |}.

Definition set_text (text : string) (n : Node) : Node :=
  {| classList := classList n; textContent := text |}.

End Dom.

(* ===================================================================== *)
(** ** public/app.js *)
(* ===================================================================== *)

Module Client.

(** The two output elements the script looks up when it loads. *)
Inductive Target : Type := helloOutput | dbOutput.

#[export] Instance Target_eq_dec : EqDecision Target.
Proof. solve_decision. Defined.

Record Page : Type := {
  hello_node : Dom.Node;
  db_node : Dom.Node;
  console : Console
}.

Definition node (t : Target) (pg : Page) : Dom.Node :=
  match t with
  | helloOutput => hello_node pg
  | dbOutput => db_node pg
  end.

Definition with_node (t : Target) (f : Dom.Node -> Dom.Node) (pg : Page) : Page :=
  match t with
  | helloOutput =>
      {| hello_node := f (hello_node pg); db_node := db_node pg;
         console := console pg |}
  | dbOutput =>
      {| hello_node := hello_node pg; db_node := f (db_node pg);
         console := console pg |}
  end.

Definition update (t : Target) (f : Dom.Node -> Dom.Node) : M Page unit :=
  modify (with_node t f).

Definition console_error (args : list Js.value) : M Page unit :=
  modify (fun pg =>
    {| hello_node := hello_node pg; db_node := db_node pg;
       console := (console pg ++ [args])%list |}).

Definition when {S} (b : bool) (m : M S unit) : M S unit :=
  if b then m else mret tt.

(** [setStatus(node, status, text)] *)
Definition setStatus (t : Target) (status text : Js.value) : M Page unit :=
  update t (Dom.remove ["success"; "error"]);;
  when (Js.is_string status "success") (update t (Dom.add "success"));;
  when (Js.is_string status "error") (update t (Dom.add "error"));;
  s ← eval (Js.to_text text);
  update t (Dom.set_text s).

(** What [fetch] resolves to, as far as the script looks at it. *)
Record Response : Type := {
  status : Z;
  statusText : string;
  json : Settled Js.value
}.

(** [response.ok] *)
Definition ok (r : Response) : bool :=
  (200 <=? status r) && (status r <=? 299).

Definition loading_text : string := "Loading…".

(** [fetchJSON(url, target)] up to its first [await]... *)
Definition fetchJSON_begin (t : Target) : M Page unit :=
  setStatus t Js.Null (Js.Str loading_text).

(** ... and from there on, once [fetch(url)] has settled as [net]. *)
Definition fetchJSON_settle (url : string) (t : Target) (net : Settled Response)
  : M Page unit :=
  try_catch
    (response ← await net;
     when (negb (ok response))
       (throw (Js.Err "Error"
                 (Js.decimal (status response) +:+ " " +:+ statusText response)
                 []));;
     payload ← await (json response);
     setStatus t (Js.Str "success")
       (Js.of_option (Js.stringify_spaces 2 payload)))
    (fun error =>
       console_error [Js.Str ("Failed to fetch " +:+ url); error];;
       message ← eval (Js.get error "message");
       setStatus t (Js.Str "error") message).

Definition fetchJSON (url : string) (t : Target) (net : Settled Response)
  : M Page unit :=
  fetchJSON_begin t;; fetchJSON_settle url t net.

(** What starts a fetch: the first paint (both outputs) and the two
    buttons. *)
Inductive Trigger : Type := FirstPaint | ClickHello | ClickDb.

Definition calls (tr : Trigger) : list (string * Target) :=
  match tr with
  | FirstPaint => [("/api/hello", helloOutput); ("/db-check", dbOutput)]
  | ClickHello => [("/api/hello", helloOutput)]
  | ClickDb => [("/db-check", dbOutput)]
  end.

(** The calls of a trigger run to their first [await] one after the other;
    the requests then settle in some order. *)
Fixpoint begin_all (cs : list (string * Target)) : M Page unit :=
  match cs with
  | [] => mret tt
  | (_, t) :: cs' => fetchJSON_begin t;; begin_all cs'
  end.

Fixpoint settle_all (net : Target -> Settled Response)
    (order : list (string * Target)) : M Page unit :=
  match order with
  | [] => mret tt
  | (url, t) :: order' => fetchJSON_settle url t (net t);; settle_all net order'
  end.

End Client.

(* ===================================================================== *)
(** ** Vocabulary of the properties *)
(* ===================================================================== *)

(** What the probe amounts to for the handler: the server time it reads
    off the settled promise, or what is thrown on the way.  A probe
    succeeds when this is [Normal]. *)
Definition reported_time (probe : Settled Js.value) : Js.completion Js.value :=
  match probe with
  | Resolved result =>
      rows ← Js.destructure result "rows";
      row ← Js.get rows "0";
      Js.get row "server_time"
  | Rejected reason => Js.Throw reason
  end.

Definition healthy (probe : Settled Js.value) : Prop :=
  exists t, reported_time probe = Js.Normal t.

(** The two envelopes of section 6 of the specification. *)
Definition ok_envelope (database : string) (serverTime : Js.value) : Js.value :=
  Js.Obj [("status", Js.Str "ok");
          ("database", Js.Str database);
          ("serverTime", serverTime)].

Definition error_envelope (message : Js.value) : Js.value :=
  Js.Obj [("status", Js.Str "error"); ("message", message)].

(** A text between double quotes, as it is (no escaping). *)
Definition q (s : string) : string :=
  String Js.dquote (s +:+ Js.str1 Js.dquote).

Definition keys (v : Js.value) : list string :=
  match v with
  | Js.Obj props => List.map fst props
  | _ => []
  end.

(** A field is populated when it has a value other than [undefined], that
    is when it shows in the JSON text. *)
Definition populated (envelope : Js.value) (k : string) : bool :=
  match Js.get_defined envelope k with
  | Js.Undefined => false
  | _ => true
  end.

Definition has_success_detail (envelope : Js.value) : bool :=
  populated envelope "database" || populated envelope "serverTime".

Definition has_error_message (envelope : Js.value) : bool :=
  populated envelope "message".

(** The reason of a rejection is an actual value, as every error of the
    driver and of the runtime is. *)
Definition reason_defined (probe : Settled Js.value) : bool :=
  match probe with
  | Rejected reason => negb (Js.is_nullish reason)
  | Resolved _ => true
  end.

(** The reason of a rejection carries a message, as every Error does. *)
Definition reason_has_message (probe : Settled Js.value) : bool :=
  match probe with
  | Rejected reason => populated reason "message"
  | Resolved _ => true
  end.

(** A field of the envelope a response carries. *)
Definition field (r : Express.Res) (k : string) : Js.value :=
  match Express.payload r with
  | Some envelope => Js.get_defined envelope k
  | None => Js.Undefined
  end.

Definition message_nonempty (r : Express.Res) : bool :=
  match field r "message" with
  | Js.Str s => negb (String.eqb s EmptyString)
  | _ => false
  end.

(** The response to one probe, on a fresh response object. *)
Definition respond (cfg : Server.Config) (probe : Settled Js.value) : Express.Res :=
  Server.res (snd (Server.db_check cfg probe (Server.initial []))).

(** A pool that answers from a script, one entry per query. *)
Definition scripted (sql : string) (script : list (Settled Js.value))
  : Settled Js.value * list (Settled Js.value) :=
  match script with
  | probe :: rest => (probe, rest)
  | [] => (Rejected (Js.Err "Error" "Connection terminated unexpectedly" []), [])
  end.

Definition rows_of (rows : list Js.value) : Js.value :=
  Js.Obj [("rows", Js.Arr rows); ("rowCount", Js.Num (Z.of_nat (List.length rows)))].

Definition row_at (t : Js.value) : Js.value :=
  Js.Obj [("server_time", t)].

(** *** The page *)

(** What an output element shows. *)
Definition loading (n : Dom.Node) : Prop :=
  Dom.contains "success" n = false /\
  Dom.contains "error" n = false /\
  Dom.textContent n = Client.loading_text.

Inductive Rendering : Type :=
| Success (text : string)
| Failure (text : string).

Definition shows (n : Dom.Node) (r : Rendering) : Prop :=
  match r with
  | Success text =>
      Dom.contains "success" n = true /\ Dom.contains "error" n = false /\
      Dom.textContent n = text
  | Failure text =>
      Dom.contains "error" n = true /\ Dom.contains "success" n = false /\
      Dom.textContent n = text
  end.

Definition message_of (e : Js.value) : string :=
  match e with
  | Js.Err _ message _ => message
  | _ => EmptyString
  end.

(** The outcomes of a request: the network fails and [fetch] rejects, the
    status is not a 2xx, the body does not parse and [response.json()]
    rejects, or the payload arrives.  The two rejections carry an Error
    object (a TypeError, a SyntaxError), as the Fetch standard has it. *)
Definition standard_outcome (net : Settled Client.Response) : bool :=
  match net with
  | Rejected e => Js.is_error e
  | Resolved response =>
      if Client.ok response then
        match Client.json response with
        | Resolved _ => true
        | Rejected e => Js.is_error e
        end
      else true
  end.

(** What the element has to show for each of them: the payload, printed
    with two spaces of indentation, or the message of the failure. *)
Definition expected (net : Settled Client.Response) : Rendering :=
  match net with
  | Rejected e => Failure (message_of e)
  | Resolved response =>
      if Client.ok response then
        match Client.json response with
        | Resolved payload =>
            Success (default EmptyString (Js.stringify_spaces 2 payload))
        | Rejected e => Failure (message_of e)
        end
      else
        Failure (Js.decimal (Client.status response) +:+ " " +:+
                 Client.statusText response)
  end.

Definition targets (tr : Client.Trigger) : list Client.Target :=
  List.map snd (Client.calls tr).

(** A page with a stale error on the hello output, and a first paint on
    which /api/hello answers and /db-check comes back with a 500. *)
Definition sample_page : Client.Page :=
  {| Client.hello_node :=
       {| Dom.classList := ["output"; "error"];
          Dom.textContent := "Failed to fetch" |};
     Client.db_node := {| Dom.classList := ["output"]; Dom.textContent := EmptyString |};
     Client.console := [] |}.

Definition sample_net (t : Client.Target) : Settled Client.Response :=
  match t with
  | Client.helloOutput =>
      Resolved {| Client.status := 200; Client.statusText := "OK";
                  Client.json :=
                    Resolved (Js.Obj [("message",
                                       Js.Str "Hello World from Dockerized Express!")]) |}
  | Client.dbOutput =>
      Resolved {| Client.status := 500; Client.statusText := "Internal Server Error";
                  Client.json :=
                    Resolved (error_envelope (Js.Str "connect ECONNREFUSED 127.0.0.1:5432")) |}
  end.

(** *** Further vocabulary *)

(** The response of the 500 that [sample_net] gives to /db-check. *)
Definition sample_response : Client.Response :=
  {| Client.status := 500; Client.statusText := "Internal Server Error";
     Client.json := Resolved (error_envelope (Js.Str "connect ECONNREFUSED 127.0.0.1:5432")) |}.

(** The six names [src/index.js] destructures from [process.env]. *)
Definition read_names : list string :=
  ["PORT"; "DB_HOST"; "DB_PORT"; "DB_USER"; "DB_PASSWORD"; "DB_NAME"].

Definition failed (probe : Settled Js.value) : bool :=
  match reported_time probe with
  | Js.Throw _ => true
  | Js.Normal _ => false
  end.

(** What a probe makes the handler print. *)
Definition failure_log (probe : Settled Js.value) : Console :=
  match reported_time probe with
  | Js.Throw e => [[Js.Str "Database check failed"; e]]
  | Js.Normal _ => []
  end.

(** The answers to which reading [rows[0].server_time] throws. *)
Definition unreadable (result : Js.value) : bool :=
  Js.is_nullish result ||
  Js.is_nullish (Js.get_defined result "rows") ||
  Js.is_nullish (Js.get_defined (Js.get_defined result "rows") "0").

(** What the catch block of [fetchJSON] is entered with, if at all. *)
Definition caught (net : Settled Client.Response) : option Js.value :=
  match net with
  | Rejected e => Some e
  | Resolved response =>
      if Client.ok response then
        match Client.json response with
        | Resolved _ => None
        | Rejected e => Some e
        end
      else
        Some (Js.Err "Error"
                (Js.decimal (Client.status response) +:+ " " +:+
                 Client.statusText response) [])
  end.

Definition fetch_log (url : string) (net : Settled Client.Response) : Console :=
  match caught net with
  | Some e => [[Js.Str ("Failed to fetch " +:+ url); e]]
  | None => []
  end.

Definition is_status_class (c : string) : bool :=
  String.eqb c "success" || String.eqb c "error".

(** The tokens [setStatus] leaves alone, and the one it adds. *)
Definition other_classes (l : list string) : list string :=
  List.filter (fun c => negb (is_status_class c)) l.

Definition status_class (status : Js.value) : list string :=
  if Js.is_string status "success" then ["success"]
  else if Js.is_string status "error" then ["error"]
  else [].

Definition rendering_class (r : Rendering) : string :=
  match r with
  | Success _ => "success"
  | Failure _ => "error"
  end.

Definition rendering_text (r : Rendering) : string :=
  match r with
  | Success text => text
  | Failure text => text
  end.

(* ===================================================================== *)
(** ** The status handler *)
(* ===================================================================== *)

Ltac run_handler :=
  unfold Server.db_check, try_catch, await, throw, eval,
    Server.res_json, Server.res_status, Server.console_error, modify,
    mbind, M_bind, completion_bind, mret, M_ret, completion_ret;
  cbn.

(** The try block and the catch block, each in closed form. *)
Lemma db_check_success cfg probe t st :
  reported_time probe = Js.Normal t ->
  Server.db_check cfg probe st =
    (Js.Normal tt,
     {| Server.res := Express.json (ok_envelope (Server.DB_NAME cfg) t) (Server.res st);
        Server.console := Server.console st |}).
Proof.
  destruct probe as [result | reason]; [| discriminate].
  unfold reported_time, mbind, completion_bind.
  destruct (Js.destructure result "rows") as [rows | e] eqn:Hrows; [| discriminate].
  destruct (Js.get rows "0") as [row | e] eqn:Hrow; [| discriminate].
  intros Ht. run_handler. rewrite Hrows. cbn. rewrite Hrow. cbn. rewrite Ht.
  reflexivity.
Qed.

Lemma db_check_failure cfg probe e st :
  reported_time probe = Js.Throw e ->
  Server.db_check cfg probe st =
    let st' :=
      {| Server.res := Express.status 500 (Server.res st);
         Server.console :=
           (Server.console st ++ [[Js.Str "Database check failed"; e]])%list |} in
    if Js.is_nullish e
    then (Js.Throw (Js.TypeError (Js.cannot_read e "message")), st')
    else (Js.Normal tt,
          {| Server.res :=
               Express.json (error_envelope (Js.get_defined e "message"))
                 (Server.res st');
             Server.console := Server.console st' |}).
Proof.
  intros H.
  assert (Hcatch : forall e0,
    (Server.console_error [Js.Str "Database check failed"; e0];;
     Server.res_status 500;;
     message ← eval (Js.get e0 "message");
     Server.res_json (Js.Obj [("status", Js.Str "error"); ("message", message)])) st
    = let st' :=
        {| Server.res := Express.status 500 (Server.res st);
           Server.console :=
             (Server.console st ++ [[Js.Str "Database check failed"; e0]])%list |} in
      if Js.is_nullish e0
      then (Js.Throw (Js.TypeError (Js.cannot_read e0 "message")), st')
      else (Js.Normal tt,
            {| Server.res :=
                 Express.json (error_envelope (Js.get_defined e0 "message"))
                   (Server.res st');
               Server.console := Server.console st' |})).
  { intros e0. run_handler. unfold Js.get. destruct (Js.is_nullish e0); reflexivity. }
  destruct probe as [result | reason].
  - revert H. unfold reported_time, mbind, completion_bind.
    destruct (Js.destructure result "rows") as [rows | e1] eqn:Hrows.
    + destruct (Js.get rows "0") as [row | e2] eqn:Hrow.
      * intros Ht. rewrite <- Hcatch. run_handler.
        rewrite Hrows. cbn. rewrite Hrow. cbn. rewrite Ht. reflexivity.
      * intros [= <-]. rewrite <- Hcatch. run_handler.
        rewrite Hrows. cbn. rewrite Hrow. reflexivity.
    + intros [= <-]. rewrite <- Hcatch. run_handler. rewrite Hrows. reflexivity.
  - injection H as <-. rewrite <- Hcatch. reflexivity.
Qed.

Lemma append_assoc (a b c : string) : (a +:+ b) +:+ c = a +:+ (b +:+ c).
Proof.
  induction a as [| x a IH]; [reflexivity |].
  change (String x ((a +:+ b) +:+ c) = String x (a +:+ (b +:+ c))).
  now rewrite IH.
Qed.

(** The JSON text of the success envelope. *)
Lemma ok_envelope_text database t :
  Js.stringify (ok_envelope database t) =
    Some ("{" +:+ q "status" +:+ ":" +:+ q "ok" +:+ "," +:+
          q "database" +:+ ":" +:+ Js.quote database +:+
          match Js.stringify t with
          | Some text => "," +:+ q "serverTime" +:+ ":" +:+ text
          | None => EmptyString
          end +:+ "}").
Proof.
  unfold Js.stringify, ok_envelope. cbn.
  change (EmptyString +:+ EmptyString) with EmptyString.
  destruct (Js.serialize EmptyString EmptyString t) as [text |];
    unfold Js.member, Js.quote, q; cbn; rewrite ?append_assoc; cbn.
  all: reflexivity.
Qed.

Lemma error_envelope_text m :
  Js.stringify (error_envelope m) =
    Some ("{" +:+ q "status" +:+ ":" +:+ q "error" +:+
          match Js.stringify m with
          | Some text => "," +:+ q "message" +:+ ":" +:+ text
          | None => EmptyString
          end +:+ "}").
Proof.
  unfold Js.stringify, error_envelope. cbn.
  change (EmptyString +:+ EmptyString) with EmptyString.
  destruct (Js.serialize EmptyString EmptyString m) as [text |];
    unfold Js.member, Js.quote, q; cbn; rewrite ?append_assoc; cbn.
  all: reflexivity.
Qed.

(** A probe that resolved can only fail the handler with a TypeError of
    the runtime. *)
Lemma malformed_throws_TypeError result e :
  reported_time (Resolved result) = Js.Throw e ->
  exists text, e = Js.TypeError text.
Proof.
  unfold reported_time, mbind, completion_bind, Js.destructure, Js.get.
  destruct (Js.is_nullish result); [intros [= <-]; eauto |].
  destruct (Js.is_nullish (Js.get_defined result "rows")); [intros [= <-]; eauto |].
  destruct (Js.is_nullish (Js.get_defined (Js.get_defined result "rows") "0"));
    [intros [= <-]; eauto | discriminate].
Qed.

Lemma failure_reason_defined probe e :
  reported_time probe = Js.Throw e ->
  reason_defined probe = true ->
  Js.is_nullish e = false.
Proof.
  destruct probe as [result | reason].
  - intros H _. destruct (malformed_throws_TypeError _ _ H) as [text ->]. reflexivity.
  - intros [= <-]. cbn. now destruct (Js.is_nullish reason).
Qed.

Lemma failure_has_message probe e :
  reported_time probe = Js.Throw e ->
  reason_has_message probe = true ->
  populated e "message" = true.
Proof.
  destruct probe as [result | reason].
  - intros H _. destruct (malformed_throws_TypeError _ _ H) as [text ->]. reflexivity.
  - intros [= <-]. cbn. trivial.
Qed.

Lemma populated_not_nullish v k : populated v k = true -> Js.is_nullish v = false.
Proof. destruct v; cbn; congruence. Qed.

Lemma reported_time_cases probe :
  (exists t, reported_time probe = Js.Normal t) \/
  (exists e, reported_time probe = Js.Throw e).
Proof. destruct (reported_time probe) as [t | e]; eauto. Qed.

(** *** The model at work *)

Example stringify_compact :
  Js.stringify (Js.Obj [("a", Js.Arr [Js.Num 1; Js.Undefined; Js.Null]);
                        ("skipped", Js.Undefined);
                        ("b", Js.Bool true)]) =
    Some ("{" +:+ q "a" +:+ ":[1,null,null]," +:+ q "b" +:+ ":true}").
Proof. reflexivity. Qed.

Example stringify_pretty :
  Js.stringify_spaces 2 (Js.Obj [("message", Js.Str "Hello"); ("list", Js.Arr [])]) =
    Some ("{" +:+ Js.newline +:+
          "  " +:+ q "message" +:+ ": " +:+ q "Hello" +:+ "," +:+ Js.newline +:+
          "  " +:+ q "list" +:+ ": []" +:+ Js.newline +:+
          "}").
Proof. reflexivity. Qed.

Example quote_escapes :
  Js.quote ("a" +:+ Js.str1 Js.dquote +:+ Js.newline +:+ Js.str1 (ascii_of_nat 1)) =
    Js.str1 Js.dquote +:+ "a" +:+ Js.str1 Js.backslash +:+ Js.str1 Js.dquote +:+
    Js.str1 Js.backslash +:+ "n" +:+ Js.str1 Js.backslash +:+ "u0001" +:+
    Js.str1 Js.dquote.
Proof. reflexivity. Qed.

Example date_is_sent_as_iso_text :
  Express.body
    (respond (Server.load_env ∅)
       (Resolved (rows_of [row_at (Js.Date "2024-01-01T00:00:00.000Z"
                                     "Mon Jan 01 2024 00:00:00 GMT+0000")]))) =
    Some ("{" +:+ q "status" +:+ ":" +:+ q "ok" +:+ "," +:+
          q "database" +:+ ":" +:+ q "postgres" +:+ "," +:+
          q "serverTime" +:+ ":" +:+ q "2024-01-01T00:00:00.000Z" +:+ "}").
Proof. reflexivity. Qed.

Example empty_rows_answer :
  let r := respond (Server.load_env ∅) (Resolved (rows_of [])) in
  Express.statusCode r = 500 /\
  Express.body r =
    Some ("{" +:+ q "status" +:+ ":" +:+ q "error" +:+ "," +:+ q "message" +:+ ":" +:+
          q "Cannot read properties of undefined (reading 'server_time')" +:+ "}").
Proof. split; reflexivity. Qed.

(** Where the handler would end by throwing: a rejection whose reason is
    [null] makes [error.message] throw inside the catch block, after the
    status was set and before anything is sent. *)
Example null_reason_is_not_answered :
  Server.db_check (Server.load_env ∅) (Rejected Js.Null) (Server.initial []) =
    (Js.Throw (Js.TypeError "Cannot read properties of null (reading 'message')"),
     {| Server.res := Express.status 500 Express.fresh;
        Server.console := [[Js.Str "Database check failed"; Js.Null]] |}).
Proof. reflexivity. Qed.

Example non_ok_status_is_shown :
  Client.node Client.dbOutput
    (snd (Client.fetchJSON "/db-check" Client.dbOutput
            (sample_net Client.dbOutput) sample_page)) =
    {| Dom.classList := ["output"; "error"];
       Dom.textContent := "500 Internal Server Error" |}.
Proof. reflexivity. Qed.

(** *** Success *)

(** C1. When the probe succeeds and the dependency reports server time
    [t], the handler completes and the body it sends is the JSON text of
    the envelope with status ok, the configured database name and [t] as
    serverTime; with "testdb" configured and the probe returning
    "2024-01-01T00:00:00Z" the body is exactly
    {"status":"ok","database":"testdb","serverTime":"2024-01-01T00:00:00Z"}. *)
Theorem db_check_ok_envelope cfg probe t log :
  reported_time probe = Js.Normal t ->
  let st' := snd (Server.db_check cfg probe (Server.initial log)) in
  fst (Server.db_check cfg probe (Server.initial log)) = Js.Normal tt /\
  Express.payload (Server.res st') = Some (ok_envelope (Server.DB_NAME cfg) t) /\
  Express.body (Server.res st') =
    Some ("{" +:+ q "status" +:+ ":" +:+ q "ok" +:+ "," +:+
          q "database" +:+ ":" +:+ Js.quote (Server.DB_NAME cfg) +:+
          match Js.stringify t with
          | Some text => "," +:+ q "serverTime" +:+ ":" +:+ text
          | None => EmptyString
          end +:+ "}") /\
  Express.body
    (respond (Server.load_env {[ "DB_NAME" := "testdb" ]})
       (Resolved (rows_of [row_at (Js.Str "2024-01-01T00:00:00Z")]))) =
    Some ("{" +:+ q "status" +:+ ":" +:+ q "ok" +:+ "," +:+
          q "database" +:+ ":" +:+ q "testdb" +:+ "," +:+
          q "serverTime" +:+ ":" +:+ q "2024-01-01T00:00:00Z" +:+ "}").
Proof.
  intros H. cbn zeta. rewrite (db_check_success cfg probe t _ H). cbn [fst snd Server.res].
  repeat split.
  unfold Express.json, Express.body. now rewrite ok_envelope_text.
Qed.

Lemma db_check_ok_envelope_witness :
  reported_time (Resolved (rows_of [row_at (Js.Date "2024-01-01T00:00:00.000Z" "Mon Jan 01 2024")]))
    = Js.Normal (Js.Date "2024-01-01T00:00:00.000Z" "Mon Jan 01 2024") /\
  Express.payload
    (Server.res (snd (Server.db_check (Server.load_env ∅)
       (Resolved (rows_of [row_at (Js.Date "2024-01-01T00:00:00.000Z" "Mon Jan 01 2024")]))
       (Server.initial [])))) =
    Some (ok_envelope "postgres" (Js.Date "2024-01-01T00:00:00.000Z" "Mon Jan 01 2024")).
Proof.
  split; [reflexivity |].
  exact (proj1 (proj2 (db_check_ok_envelope (Server.load_env ∅)
           (Resolved (rows_of [row_at (Js.Date "2024-01-01T00:00:00.000Z" "Mon Jan 01 2024")]))
           (Js.Date "2024-01-01T00:00:00.000Z" "Mon Jan 01 2024")
           [] eq_refl))).
Defined.

(** C10. A successful probe is answered with HTTP 200, the status a
    response has when the handler sets none; every failing probe leaves
    the status at 500: the status code alone tells the two apart. *)
Theorem db_check_status_code cfg probe log :
  let r := Server.res (snd (Server.db_check cfg probe (Server.initial log))) in
  (forall t, reported_time probe = Js.Normal t ->
     Express.statusCode r = 200 /\
     Express.statusCode r = Express.statusCode Express.fresh /\
     Express.payload r = Some (ok_envelope (Server.DB_NAME cfg) t)) /\
  (forall e, reported_time probe = Js.Throw e -> Express.statusCode r = 500) /\
  (Express.statusCode r = 200 <-> exists t, reported_time probe = Js.Normal t).
Proof.
  cbn zeta. destruct (reported_time probe) as [t | e] eqn:H.
  - rewrite (db_check_success _ _ _ _ H). cbn.
    split; [intros t0 [= <-]; auto |].
    split; [discriminate |].
    split; eauto.
  - rewrite (db_check_failure _ _ _ _ H). cbn zeta.
    destruct (Js.is_nullish e); cbn;
      (split; [discriminate |]); (split; [reflexivity |]);
      (split; [discriminate | intros [? [=]]]).
Qed.

Lemma db_check_status_code_witness :
  reported_time (Resolved (rows_of [row_at (Js.Str "2024-01-01T00:00:00Z")]))
    = Js.Normal (Js.Str "2024-01-01T00:00:00Z") /\
  Express.statusCode
    (Server.res (snd (Server.db_check (Server.load_env ∅)
       (Resolved (rows_of [row_at (Js.Str "2024-01-01T00:00:00Z")]))
       (Server.initial [])))) = 200.
Proof.
  split; [reflexivity |].
  exact (proj1 (proj1 (db_check_status_code (Server.load_env ∅)
           (Resolved (rows_of [row_at (Js.Str "2024-01-01T00:00:00Z")])) [])
         (Js.Str "2024-01-01T00:00:00Z") eq_refl)).
Defined.

(** *** Failure *)

(** C2. When the probe fails with a reason whose message is [m], the
    handler completes, the envelope is status error with message [m], it
    goes out with HTTP 500, a 5xx status, and no successful probe is
    answered with that status. *)
Theorem db_check_error_envelope cfg reason m log :
  Js.get reason "message" = Js.Normal m ->
  let st' := snd (Server.db_check cfg (Rejected reason) (Server.initial log)) in
  fst (Server.db_check cfg (Rejected reason) (Server.initial log)) = Js.Normal tt /\
  Express.payload (Server.res st') = Some (error_envelope m) /\
  Express.body (Server.res st') =
    Some ("{" +:+ q "status" +:+ ":" +:+ q "error" +:+
          match Js.stringify m with
          | Some text => "," +:+ q "message" +:+ ":" +:+ text
          | None => EmptyString
          end +:+ "}") /\
  Express.statusCode (Server.res st') = 500 /\
  500 <= Express.statusCode (Server.res st') < 600 /\
  forall probe t log',
    reported_time probe = Js.Normal t ->
    Express.statusCode
      (Server.res (snd (Server.db_check cfg probe (Server.initial log'))))
    <> Express.statusCode (Server.res st').
Proof.
  unfold Js.get. destruct (Js.is_nullish reason) eqn:Hn; [discriminate |].
  intros [= <-]. cbn zeta.
  rewrite (db_check_failure cfg (Rejected reason) reason (Server.initial log) eq_refl).
  cbn zeta. rewrite Hn. cbn [fst snd Server.res Server.console].
  split; [reflexivity |]. split; [reflexivity |].
  split; [unfold Express.json, Express.body; now rewrite error_envelope_text |].
  split; [reflexivity |]. split; [cbn; lia |].
  intros probe t log' H. rewrite (db_check_success _ _ _ _ H). cbn. discriminate.
Qed.

Lemma db_check_error_envelope_witness :
  Js.get (Js.Err "Error" "connect ECONNREFUSED 127.0.0.1:5432"
            [("code", Js.Str "ECONNREFUSED")]) "message"
    = Js.Normal (Js.Str "connect ECONNREFUSED 127.0.0.1:5432") /\
  Express.payload
    (Server.res (snd (Server.db_check (Server.load_env ∅)
       (Rejected (Js.Err "Error" "connect ECONNREFUSED 127.0.0.1:5432"
                    [("code", Js.Str "ECONNREFUSED")]))
       (Server.initial [])))) =
    Some (error_envelope (Js.Str "connect ECONNREFUSED 127.0.0.1:5432")).
Proof.
  split; [reflexivity |].
  exact (proj1 (proj2 (db_check_error_envelope (Server.load_env ∅)
           (Js.Err "Error" "connect ECONNREFUSED 127.0.0.1:5432"
              [("code", Js.Str "ECONNREFUSED")])
           (Js.Str "connect ECONNREFUSED 127.0.0.1:5432")
           [] eq_refl))).
Defined.

(** C9, as stated, fails: the handler passes the message of the failure
    on as it is, and an Error may have an empty one: [new Error()] has,
    and so has the AggregateError that node raises when every address of
    the host refuses the connection. *)
Lemma db_check_message_can_be_empty :
  let r := respond (Server.load_env ∅)
             (Rejected (Js.Err "AggregateError" EmptyString
                          [("code", Js.Str "ECONNREFUSED")])) in
  Express.statusCode r = 500 /\
  Express.payload r = Some (error_envelope (Js.Str EmptyString)) /\
  Express.body r =
    Some ("{" +:+ q "status" +:+ ":" +:+ q "error" +:+ "," +:+
          q "message" +:+ ":" +:+ q EmptyString +:+ "}") /\
  message_nonempty r = false.
Proof. repeat split. Qed.

(** C9, amended. When the probe fails with a reason whose message is the
    text [m], the message field of the Error envelope is [m]: it is
    non-empty exactly when [m] is. *)
Theorem db_check_message_is_reason_message cfg reason m log :
  Js.get reason "message" = Js.Normal (Js.Str m) ->
  let r := Server.res (snd (Server.db_check cfg (Rejected reason) (Server.initial log))) in
  field r "message" = Js.Str m /\
  (message_nonempty r = true <-> m <> EmptyString).
Proof.
  unfold Js.get. destruct (Js.is_nullish reason) eqn:Hn; [discriminate |].
  intros [= Hm]. cbn zeta.
  rewrite (db_check_failure cfg (Rejected reason) reason (Server.initial log) eq_refl).
  cbn zeta. rewrite Hn. unfold message_nonempty, field. cbn. rewrite Hm.
  split; [reflexivity |].
  destruct (String.eqb_spec m EmptyString) as [-> | Hne]; cbn; split; congruence.
Qed.

Lemma db_check_message_is_reason_message_witness :
  Js.get (Js.Err "error" "password authentication failed for user postgres" [])
    "message"
    = Js.Normal (Js.Str "password authentication failed for user postgres") /\
  field
    (Server.res (snd (Server.db_check (Server.load_env ∅)
       (Rejected (Js.Err "error" "password authentication failed for user postgres" []))
       (Server.initial []))))
    "message" = Js.Str "password authentication failed for user postgres".
Proof.
  split; [reflexivity |].
  exact (proj1 (db_check_message_is_reason_message (Server.load_env ∅)
           (Js.Err "error" "password authentication failed for user postgres" [])
           "password authentication failed for user postgres"
           [] eq_refl)).
Defined.

(** *** The shape of the envelope *)

(** C3. Whenever the probe succeeds, or fails with a reason that carries
    a message, the handler sends an envelope in which exactly one of the
    success detail (database, serverTime) and the error message is
    populated; an envelope with success detail has no message field and
    one with a message has neither a database nor a serverTime field. *)
Theorem envelope_exactly_one_detail cfg probe log :
  reason_has_message probe = true ->
  exists envelope,
    Express.payload (Server.res (snd (Server.db_check cfg probe (Server.initial log)))) = Some envelope /\
    xorb (has_success_detail envelope) (has_error_message envelope) = true /\
    (has_success_detail envelope = true ->
       keys envelope = ["status"; "database"; "serverTime"] /\
       ~ In "message" (keys envelope)) /\
    (has_error_message envelope = true ->
       keys envelope = ["status"; "message"] /\
       ~ In "database" (keys envelope) /\ ~ In "serverTime" (keys envelope)).
Proof.
  intros Hmsg. destruct (reported_time probe) as [t | e] eqn:H.
  - rewrite (db_check_success _ _ _ _ H). cbn.
    exists (ok_envelope (Server.DB_NAME cfg) t).
    split; [reflexivity |]. split; [reflexivity |].
    split; [| discriminate].
    intros _. split; [reflexivity |]. cbn. intuition discriminate.
  - pose proof (failure_has_message _ _ H Hmsg) as Hpop.
    rewrite (db_check_failure _ _ _ _ H). cbn zeta.
    rewrite (populated_not_nullish _ _ Hpop). cbn.
    exists (error_envelope (Js.get_defined e "message")).
    assert (Hm : has_error_message (error_envelope (Js.get_defined e "message")) = true)
      by exact Hpop.
    assert (Hs : has_success_detail (error_envelope (Js.get_defined e "message")) = false)
      by reflexivity.
    split; [reflexivity |]. rewrite Hm, Hs.
    split; [reflexivity |]. split; [discriminate |].
    intros _. split; [reflexivity |]. cbn. intuition discriminate.
Qed.

Lemma envelope_exactly_one_detail_witness :
  reason_has_message (Rejected (Js.Err "Error" "getaddrinfo ENOTFOUND postgres" [])) = true /\
  exists envelope,
    Express.payload
      (Server.res (snd (Server.db_check (Server.load_env ∅)
         (Rejected (Js.Err "Error" "getaddrinfo ENOTFOUND postgres" []))
         (Server.initial [])))) = Some envelope /\
    xorb (has_success_detail envelope) (has_error_message envelope) = true.
Proof.
  split; [reflexivity |].
  destruct (envelope_exactly_one_detail (Server.load_env ∅)
              (Rejected (Js.Err "Error" "getaddrinfo ENOTFOUND postgres" []))
              [] eq_refl) as (envelope & Hp & Hx & _).
  exists envelope. split; assumption.
Defined.

(** *** Malformed answers *)

(** C4, as stated, fails: a first row without the server_time column is
    answered with HTTP 200 and the ok envelope, its serverTime left out. *)
Lemma row_without_server_time_is_ok :
  let r := respond (Server.load_env ∅) (Resolved (rows_of [Js.Obj []])) in
  Express.statusCode r = 200 /\
  Express.statusCode r <> 500 /\
  Express.payload r = Some (ok_envelope "postgres" Js.Undefined) /\
  Express.body r =
    Some ("{" +:+ q "status" +:+ ":" +:+ q "ok" +:+ "," +:+
          q "database" +:+ ":" +:+ q "postgres" +:+ "}").
Proof. repeat split. discriminate. Qed.

(** C4, amended. A resolved probe on which reading [rows[0].server_time]
    throws (the result, its rows or its first row is undefined or null,
    as with an empty row set) is handled exactly as a probe rejected with
    the thrown TypeError: the Error envelope with that error's message,
    HTTP 500, and no success envelope. *)
Theorem malformed_result_is_failure cfg result e log :
  reported_time (Resolved result) = Js.Throw e ->
  Server.db_check cfg (Resolved result) (Server.initial log) = Server.db_check cfg (Rejected e) (Server.initial log) /\
  let st' := snd (Server.db_check cfg (Resolved result) (Server.initial log)) in
  fst (Server.db_check cfg (Resolved result) (Server.initial log)) = Js.Normal tt /\
  Express.statusCode (Server.res st') = 500 /\
  Express.payload (Server.res st') = Some (error_envelope (Js.get_defined e "message")) /\
  (exists text, Js.get_defined e "message" = Js.Str text) /\
  reported_time (Resolved (rows_of [])) =
    Js.Throw (Js.TypeError (Js.cannot_read Js.Undefined "server_time")).
Proof.
  intros H. split.
  - rewrite (db_check_failure _ _ _ _ H).
    now rewrite (db_check_failure cfg (Rejected e) e (Server.initial log) eq_refl).
  - cbn zeta. rewrite (db_check_failure _ _ _ _ H).
    destruct (malformed_throws_TypeError _ _ H) as [text ->]. cbn.
    repeat split. now exists text.
Qed.

Lemma malformed_result_is_failure_witness :
  reported_time (Resolved (rows_of [])) =
    Js.Throw (Js.TypeError "Cannot read properties of undefined (reading 'server_time')") /\
  Server.db_check (Server.load_env ∅) (Resolved (rows_of [])) (Server.initial []) =
  Server.db_check (Server.load_env ∅)
    (Rejected (Js.TypeError "Cannot read properties of undefined (reading 'server_time')"))
    (Server.initial []).
Proof.
  split; [reflexivity |].
  exact (proj1 (malformed_result_is_failure (Server.load_env ∅) (rows_of [])
           (Js.TypeError "Cannot read properties of undefined (reading 'server_time')")
           [] eq_refl)).
Defined.

(** *** Nothing escapes the handler *)

(** C5. Whatever the probe settles to (its reason, when it rejects, being
    an actual value), the handler completes: what was thrown is caught and
    answered with the Error envelope at HTTP 500; otherwise the Ok
    envelope is sent.  The handler never ends by throwing. *)
Theorem db_check_never_throws cfg probe log :
  reason_defined probe = true ->
  exists st',
    Server.db_check cfg probe (Server.initial log) = (Js.Normal tt, st') /\
    ((exists t, reported_time probe = Js.Normal t /\
        Express.payload (Server.res st') = Some (ok_envelope (Server.DB_NAME cfg) t)) \/
     (exists e, reported_time probe = Js.Throw e /\
        Express.statusCode (Server.res st') = 500 /\
        Express.payload (Server.res st') =
          Some (error_envelope (Js.get_defined e "message")))) /\
    (forall e, fst (Server.db_check cfg probe (Server.initial log)) <> Js.Throw e).
Proof.
  intros Hdef. destruct (reported_time probe) as [t | e] eqn:H.
  - rewrite (db_check_success _ _ _ _ H). eexists. split; [reflexivity |].
    split; [left; exists t; split; reflexivity | intros; discriminate].
  - rewrite (db_check_failure _ _ _ _ H). cbn zeta.
    rewrite (failure_reason_defined _ _ H Hdef). eexists. split; [reflexivity |].
    split; [right; exists e; repeat split | intros; discriminate].
Qed.

Lemma db_check_never_throws_witness :
  reason_defined (Rejected (Js.Err "Error" "Connection terminated unexpectedly" [])) = true /\
  exists st',
    Server.db_check (Server.load_env ∅)
      (Rejected (Js.Err "Error" "Connection terminated unexpectedly" []))
      (Server.initial []) = (Js.Normal tt, st').
Proof.
  split; [reflexivity |].
  destruct (db_check_never_throws (Server.load_env ∅)
              (Rejected (Js.Err "Error" "Connection terminated unexpectedly" []))
              [] eq_refl) as (st' & Hrun & _).
  exists st'. exact Hrun.
Defined.

(** *** Where the success detail comes from *)

(** C8, as stated, fails: the database field is not a function of what
    the dependency answered. *)
Lemma database_field_not_from_response :
  ~ exists from_response : Js.value -> Js.value,
      forall cfg result t,
        reported_time (Resolved result) = Js.Normal t ->
        field (respond cfg (Resolved result)) "database" = from_response result.
Proof.
  intros [f Hf].
  pose (result := Js.Obj [("rows", Js.Arr [Js.Obj [("server_time", Js.Str "2024-01-01T00:00:00Z");
                                                    ("current_database", Js.Str "demo")]])]).
  pose proof (Hf (Server.load_env {[ "DB_NAME" := "testdb" ]}) result _ eq_refl) as H1.
  pose proof (Hf (Server.load_env ∅) result _ eq_refl) as H2.
  rewrite <- H2 in H1. discriminate H1.
Qed.

(** C8, amended. On a successful probe the serverTime of the Ok envelope
    is the value the dependency reported, and the database field is the
    configured name DB_NAME, the same whatever the dependency answered. *)
Theorem ok_envelope_sources cfg probe t log :
  reported_time probe = Js.Normal t ->
  let r := Server.res (snd (Server.db_check cfg probe (Server.initial log))) in
  field r "serverTime" = t /\
  field r "database" = Js.Str (Server.DB_NAME cfg) /\
  forall probe' t' log',
    reported_time probe' = Js.Normal t' ->
    field (Server.res (snd (Server.db_check cfg probe' (Server.initial log')))) "database" =
    field r "database".
Proof.
  intros H. cbn zeta. rewrite (db_check_success _ _ _ _ H).
  split; [reflexivity |]. split; [reflexivity |].
  intros probe' t' log' H'. now rewrite (db_check_success _ _ _ _ H').
Qed.

Lemma ok_envelope_sources_witness :
  reported_time (Resolved (rows_of [row_at (Js.Str "2024-01-01T00:00:00Z")]))
    = Js.Normal (Js.Str "2024-01-01T00:00:00Z") /\
  field
    (Server.res (snd (Server.db_check (Server.load_env {[ "DB_NAME" := "testdb" ]})
       (Resolved (rows_of [row_at (Js.Str "2024-01-01T00:00:00Z")]))
       (Server.initial []))))
    "database" = Js.Str "testdb".
Proof.
  split; [reflexivity |].
  exact (proj1 (proj2 (ok_envelope_sources (Server.load_env {[ "DB_NAME" := "testdb" ]})
           (Resolved (rows_of [row_at (Js.Str "2024-01-01T00:00:00Z")]))
           (Js.Str "2024-01-01T00:00:00Z") [] eq_refl))).
Defined.

(** *** Many requests, one process *)

Section Repeated.

Context {Pool : Type}.
Variable query : string -> Pool -> Settled Js.value * Pool.
Variable cfg : Server.Config.

(** The response never depends on the console the handler started with. *)
Lemma response_independent_of_console probe log :
  Server.res (snd (Server.db_check cfg probe (Server.initial log))) = respond cfg probe.
Proof.
  unfold respond. destruct (reported_time probe) as [t | e] eqn:H.
  - now rewrite !(db_check_success _ _ _ _ H).
  - rewrite !(db_check_failure _ _ _ _ H). cbn zeta.
    now destruct (Js.is_nullish e).
Qed.

Lemma request_response p :
  snd (fst (Server.request query cfg p)) =
    respond cfg (fst (query Server.probe_sql (Server.pool p))) /\
  Server.pool (snd (Server.request query cfg p)) =
    snd (query Server.probe_sql (Server.pool p)).
Proof.
  unfold Server.request.
  destruct (query Server.probe_sql (Server.pool p)) as [probe pool'].
  pose proof (response_independent_of_console probe (Server.stderr p)) as H.
  destruct (Server.db_check cfg probe (Server.initial (Server.stderr p))) as [c st].
  cbn in *. now split.
Qed.

Lemma request_healthy p t :
  reported_time (fst (query Server.probe_sql (Server.pool p))) = Js.Normal t ->
  Server.request query cfg p =
    ((Js.Normal tt,
      Express.json (ok_envelope (Server.DB_NAME cfg) t) Express.fresh),
     {| Server.pool := snd (query Server.probe_sql (Server.pool p));
        Server.stderr := Server.stderr p |}).
Proof.
  unfold Server.request.
  destruct (query Server.probe_sql (Server.pool p)) as [probe pool'].
  cbn [fst snd]. intros H. now rewrite (db_check_success _ _ _ _ H).
Qed.

End Repeated.

(** C6. [n] requests against a healthy dependency give [n] Ok envelopes.
    Each response is [respond cfg] of the probe of its own call, a value
    computed from that probe and the configuration alone: the Ok envelope
    with the time that probe reported.  Of the state of the process only
    the pool has moved on: the console is as it was. *)
Theorem serve_healthy_independent {Pool : Type}
    (query : string -> Pool -> Settled Js.value * Pool)
    (cfg : Server.Config) (n : nat) (p : Server.Proc) :
  Forall healthy (fst (Server.probes query n (Server.pool p))) ->
  List.length (fst (Server.serve query cfg n p)) = n /\
  List.map snd (fst (Server.serve query cfg n p)) =
    List.map (respond cfg) (fst (Server.probes query n (Server.pool p))) /\
  Forall2
    (fun r probe =>
       exists t, reported_time probe = Js.Normal t /\
         r = (Js.Normal tt,
              Express.json (ok_envelope (Server.DB_NAME cfg) t) Express.fresh))
    (fst (Server.serve query cfg n p))
    (fst (Server.probes query n (Server.pool p))) /\
  Server.stderr (snd (Server.serve query cfg n p)) = Server.stderr p /\
  Server.pool (snd (Server.serve query cfg n p)) =
    snd (Server.probes query n (Server.pool p)).
Proof.
  revert p. induction n as [| n IH]; intros p Hall.
  - cbn. repeat split; constructor.
  - cbn [Server.serve Server.probes] in *.
    pose proof (request_healthy query cfg p) as Hreq.
    pose proof (request_response query cfg p) as [Hres _].
    destruct (query Server.probe_sql (Server.pool p)) as [probe pool1] eqn:Hq.
    cbn [fst snd] in *.
    specialize (IH {| Server.pool := pool1; Server.stderr := Server.stderr p |}).
    cbn [Server.pool Server.stderr] in IH.
    destruct (Server.probes query n pool1) as [rest pool2] eqn:Hp.
    cbn [fst snd] in *.
    apply Forall_cons_iff in Hall as [[t Ht] Hrest].
    rewrite (Hreq t Ht) in *.
    destruct (Server.serve query cfg n
                {| Server.pool := pool1; Server.stderr := Server.stderr p |})
      as [rs p2] eqn:Hs.
    destruct (IH Hrest) as (Hlen & Hmap & Hall2 & Herr & Hpl).
    cbn [fst snd map List.length] in *.
    repeat split.
    + now rewrite Hlen.
    + now rewrite Hmap, <- Hres.
    + constructor; [exists t; now split | exact Hall2].
    + exact Herr.
    + exact Hpl.
Qed.

Lemma serve_healthy_independent_witness :
  Forall healthy
    (fst (Server.probes scripted 2
       [Resolved (rows_of [row_at (Js.Str "2024-01-01T00:00:00Z")]);
        Resolved (rows_of [row_at (Js.Str "2024-01-01T00:00:05Z")])])) /\
  List.map snd
    (fst (Server.serve scripted (Server.load_env ∅) 2
       {| Server.pool :=
            [Resolved (rows_of [row_at (Js.Str "2024-01-01T00:00:00Z")]);
             Resolved (rows_of [row_at (Js.Str "2024-01-01T00:00:05Z")])];
          Server.stderr := [] |})) =
  List.map (respond (Server.load_env ∅))
    [Resolved (rows_of [row_at (Js.Str "2024-01-01T00:00:00Z")]);
     Resolved (rows_of [row_at (Js.Str "2024-01-01T00:00:05Z")])].
Proof.
  assert (H : Forall healthy
    (fst (Server.probes scripted 2
       [Resolved (rows_of [row_at (Js.Str "2024-01-01T00:00:00Z")]);
        Resolved (rows_of [row_at (Js.Str "2024-01-01T00:00:05Z")])]))).
  { repeat constructor; eexists; reflexivity. }
  split; [exact H |].
  exact (proj1 (proj2 (serve_healthy_independent scripted (Server.load_env ∅) 2
           {| Server.pool :=
                [Resolved (rows_of [row_at (Js.Str "2024-01-01T00:00:00Z")]);
                 Resolved (rows_of [row_at (Js.Str "2024-01-01T00:00:05Z")])];
              Server.stderr := [] |} H))).
Defined.

(* ===================================================================== *)
(** ** The presentation client *)
(* ===================================================================== *)

Lemma contains_remove c tokens n :
  Dom.contains c (Dom.remove tokens n) =
  Dom.contains c n && negb (existsb (String.eqb c) tokens).
Proof.
  unfold Dom.contains, Dom.remove. cbn [Dom.classList].
  induction (Dom.classList n) as [| x l IH]; [reflexivity |].
  cbn [List.filter existsb].
  destruct (String.eqb_spec c x) as [-> | Hne].
  - destruct (existsb (String.eqb x) tokens) eqn:Hx; cbn.
    + rewrite IH. cbn. apply andb_false_r.
    + now rewrite String.eqb_refl.
  - destruct (existsb (String.eqb x) tokens); cbn [negb].
    + rewrite IH. reflexivity.
    + cbn [existsb]. rewrite IH.
      destruct (String.eqb_spec c x); [contradiction | reflexivity].
Qed.

Lemma contains_add c token n :
  Dom.contains c (Dom.add token n) = Dom.contains c n || String.eqb c token.
Proof.
  unfold Dom.add, Dom.contains at 1. cbn [Dom.classList].
  destruct (Dom.contains token n) eqn:Ht.
  - destruct (String.eqb_spec c token) as [-> | Hne].
    + unfold Dom.contains in *. now rewrite Ht.
    + now rewrite orb_false_r.
  - rewrite existsb_app. cbn. now rewrite orb_false_r.
Qed.

Lemma contains_set_text c text n :
  Dom.contains c (Dom.set_text text n) = Dom.contains c n.
Proof. reflexivity. Qed.

(** The three shapes [setStatus] leaves a node in. *)
Lemma node_loading n :
  loading (Dom.set_text Client.loading_text (Dom.remove ["success"; "error"] n)).
Proof.
  unfold loading. rewrite !contains_set_text, !contains_remove. cbn.
  now rewrite !andb_false_r.
Qed.

Lemma node_success text n :
  shows (Dom.set_text text (Dom.add "success" (Dom.remove ["success"; "error"] n)))
    (Success text).
Proof.
  unfold shows. rewrite !contains_set_text, !contains_add, !contains_remove.
  cbn. now rewrite !andb_false_r.
Qed.

Lemma node_failure text n :
  shows (Dom.set_text text (Dom.add "error" (Dom.remove ["success"; "error"] n)))
    (Failure text).
Proof.
  unfold shows. rewrite !contains_set_text, !contains_add, !contains_remove.
  cbn. now rewrite !andb_false_r.
Qed.

Lemma node_with_node_same t f pg :
  Client.node t (Client.with_node t f pg) = f (Client.node t pg).
Proof. now destruct t. Qed.

Lemma node_with_node_other t t' f pg :
  t' <> t -> Client.node t' (Client.with_node t f pg) = Client.node t' pg.
Proof. destruct t, t'; intros H; try reflexivity; contradiction. Qed.

Ltac run_client :=
  unfold Client.fetchJSON_begin, Client.fetchJSON_settle, Client.setStatus,
    Client.when, Client.update, Client.console_error, try_catch, await, throw,
    eval, modify, mbind, M_bind, mret, M_ret.

(** The part before the first [await] puts the element in the loading
    state and touches nothing else. *)
Lemma begin_run t pg :
  Client.fetchJSON_begin t pg =
    (Js.Normal tt,
     Client.with_node t
       (fun n => Dom.set_text Client.loading_text (Dom.remove ["success"; "error"] n))
       pg).
Proof. destruct t; reflexivity. Qed.

Lemma setStatus_success t text pg :
  Client.setStatus t (Js.Str "success") (Js.of_option text) pg =
    (Js.Normal tt,
     Client.with_node t
       (fun n => Dom.set_text (default EmptyString text)
                   (Dom.add "success" (Dom.remove ["success"; "error"] n)))
       pg).
Proof. destruct t, text; reflexivity. Qed.

Lemma setStatus_error t text pg :
  Client.setStatus t (Js.Str "error") (Js.Str text) pg =
    (Js.Normal tt,
     Client.with_node t
       (fun n => Dom.set_text text
                   (Dom.add "error" (Dom.remove ["success"; "error"] n)))
       pg).
Proof. destruct t; reflexivity. Qed.

(** The catch block, entered with an Error object. *)
Lemma catch_run url t name message own pg :
  (Client.console_error [Js.Str ("Failed to fetch " +:+ url); Js.Err name message own];;
   m ← eval (Js.get (Js.Err name message own) "message");
   Client.setStatus t (Js.Str "error") m) pg =
    (Js.Normal tt,
     Client.with_node t
       (fun n => Dom.set_text message
                   (Dom.add "error" (Dom.remove ["success"; "error"] n)))
       {| Client.hello_node := Client.hello_node pg;
          Client.db_node := Client.db_node pg;
          Client.console :=
            (Client.console pg ++
             [[Js.Str ("Failed to fetch " +:+ url); Js.Err name message own]])%list |}).
Proof. destruct t; reflexivity. Qed.

(** The try block: it ends in [setStatus], or throws with the page as
    it was. *)
Lemma try_run t net pg :
  (response ← await net;
   Client.when (negb (Client.ok response))
     (throw (Js.Err "Error"
               (Js.decimal (Client.status response) +:+ " " +:+
                Client.statusText response) []));;
   payload ← await (Client.json response);
   Client.setStatus t (Js.Str "success")
     (Js.of_option (Js.stringify_spaces 2 payload))) pg =
  match net with
  | Rejected e => (Js.Throw e, pg)
  | Resolved response =>
      if Client.ok response then
        match Client.json response with
        | Resolved payload =>
            Client.setStatus t (Js.Str "success")
              (Js.of_option (Js.stringify_spaces 2 payload)) pg
        | Rejected e => (Js.Throw e, pg)
        end
      else
        (Js.Throw (Js.Err "Error"
           (Js.decimal (Client.status response) +:+ " " +:+
            Client.statusText response) []), pg)
  end.
Proof.
  destruct net as [response | e]; [| reflexivity].
  unfold mbind, M_bind, await, Client.when, throw, eval, mret, M_ret.
  destruct (Client.ok response); [| reflexivity].
  cbn [negb]. destruct (Client.json response); reflexivity.
Qed.

Ltac step_settle :=
  unfold Client.fetchJSON_settle, try_catch; rewrite try_run.

Lemma settle_run url t net pg :
  standard_outcome net = true ->
  exists pg',
    Client.fetchJSON_settle url t net pg = (Js.Normal tt, pg') /\
    shows (Client.node t pg') (expected net) /\
    forall t', t' <> t -> Client.node t' pg' = Client.node t' pg.
Proof.
  unfold standard_outcome, expected.
  destruct net as [response | e].
  - destruct (Client.ok response) eqn:Hok.
    + destruct (Client.json response) as [payload | e] eqn:Hjson.
      * intros _. eexists. split; [| split].
        -- step_settle. rewrite Hok, Hjson.
           rewrite setStatus_success. reflexivity.
        -- rewrite node_with_node_same. apply node_success.
        -- intros t' Hne. now apply node_with_node_other.
      * destruct e; try discriminate. intros _. eexists. split; [| split].
        -- step_settle. rewrite Hok, Hjson.
           rewrite catch_run. reflexivity.
        -- rewrite node_with_node_same. apply node_failure.
        -- intros t' Hne. rewrite node_with_node_other by assumption.
           now destruct t'.
    + intros _. eexists. split; [| split].
      -- step_settle. rewrite Hok.
         rewrite catch_run. reflexivity.
      -- rewrite node_with_node_same. apply node_failure.
      -- intros t' Hne. rewrite node_with_node_other by assumption.
         now destruct t'.
  - destruct e; try discriminate. intros _. eexists. split; [| split].
    + step_settle. rewrite catch_run. reflexivity.
    + rewrite node_with_node_same. apply node_failure.
    + intros t' Hne. rewrite node_with_node_other by assumption.
      now destruct t'.
Qed.

Lemma begin_all_run cs pg :
  exists pg1,
    Client.begin_all cs pg = (Js.Normal tt, pg1) /\
    (forall t, In t (List.map snd cs) -> loading (Client.node t pg1)) /\
    (forall t, ~ In t (List.map snd cs) -> Client.node t pg1 = Client.node t pg).
Proof.
  revert pg. induction cs as [| [url t] cs IH]; intros pg.
  - exists pg. cbn. intuition.
  - cbn [Client.begin_all List.map snd]. unfold mbind, M_bind.
    rewrite begin_run.
    destruct (IH (Client.with_node t
                    (fun n => Dom.set_text Client.loading_text
                                (Dom.remove ["success"; "error"] n)) pg))
      as (pg1 & Hrun & Hin & Hout).
    exists pg1. split; [exact Hrun |]. split.
    + intros t0 Ht0. destruct (in_dec Client.Target_eq_dec t0 (List.map snd cs)) as [Hrest | Hrest].
      * now apply Hin.
      * destruct Ht0 as [<- | Ht0]; [| contradiction].
        rewrite (Hout _ Hrest), node_with_node_same. apply node_loading.
    + intros t0 Ht0. cbn in Ht0.
      rewrite Hout by tauto. apply node_with_node_other. intros ->. tauto.
Qed.

Lemma settle_all_run net order pg :
  (forall t, standard_outcome (net t) = true) ->
  exists pg2,
    Client.settle_all net order pg = (Js.Normal tt, pg2) /\
    (forall t, In t (List.map snd order) ->
       shows (Client.node t pg2) (expected (net t))) /\
    (forall t, ~ In t (List.map snd order) -> Client.node t pg2 = Client.node t pg).
Proof.
  intros Hstd. revert pg. induction order as [| [url t] order IH]; intros pg.
  - exists pg. cbn. intuition.
  - cbn [Client.settle_all List.map snd]. unfold mbind, M_bind.
    destruct (settle_run url t (net t) pg (Hstd t)) as (pga & Hrun & Hshow & Hframe).
    rewrite Hrun.
    destruct (IH pga) as (pg2 & Hrun2 & Hin & Hout).
    exists pg2. split; [exact Hrun2 |]. split.
    + intros t0 Ht0. destruct (in_dec Client.Target_eq_dec t0 (List.map snd order)) as [Hrest | Hrest].
      * now apply Hin.
      * destruct Ht0 as [<- | Ht0]; [| contradiction].
        now rewrite (Hout _ Hrest).
    + intros t0 Ht0. cbn in Ht0.
      rewrite Hout by tauto. apply Hframe. intros ->. tauto.
Qed.

Lemma shows_not_loading n r : shows n r -> ~ loading n.
Proof.
  destruct r; cbn; intros (H1 & H2 & _) (L1 & L2 & _); congruence.
Qed.

(** C7. Whatever starts a fetch (the first paint or a click), whatever
    each request comes to (the network fails, the status is not OK, the
    body does not parse, the payload arrives) and in whatever order the
    requests settle, the script completes without throwing; each output
    it touches shows the loading state while its request is pending and,
    once all have settled, exactly one of the two final renderings:
    success with the pretty-printed payload, or error with the message of
    the failure.  None is left in the loading state. *)
Theorem every_trigger_ends_rendered tr net order pg :
  Permutation order (Client.calls tr) ->
  (forall t, standard_outcome (net t) = true) ->
  exists pg1 pg2,
    Client.begin_all (Client.calls tr) pg = (Js.Normal tt, pg1) /\
    Client.settle_all net order pg1 = (Js.Normal tt, pg2) /\
    forall t, In t (targets tr) ->
      loading (Client.node t pg1) /\
      shows (Client.node t pg2) (expected (net t)) /\
      xorb (Dom.contains "success" (Client.node t pg2))
           (Dom.contains "error" (Client.node t pg2)) = true /\
      ~ loading (Client.node t pg2).
Proof.
  intros Hperm Hstd.
  destruct (begin_all_run (Client.calls tr) pg) as (pg1 & Hbegin & Hload & _).
  destruct (settle_all_run net order pg1 Hstd) as (pg2 & Hsettle & Hshow & _).
  exists pg1, pg2. split; [exact Hbegin |]. split; [exact Hsettle |].
  intros t Ht.
  assert (Ht' : In t (List.map snd order)).
  { unfold targets in Ht. eapply Permutation_in; [| exact Ht].
    apply Permutation_map. now apply Permutation_sym. }
  specialize (Hshow t Ht'). split; [now apply Hload |]. split; [exact Hshow |].
  split; [| now apply shows_not_loading with (expected (net t))].
  destruct (expected (net t)); cbn in Hshow; destruct Hshow as (-> & -> & _);
    reflexivity.
Qed.

Lemma every_trigger_ends_rendered_witness :
  Permutation [("/db-check", Client.dbOutput); ("/api/hello", Client.helloOutput)]
    (Client.calls Client.FirstPaint) /\
  (forall t, standard_outcome (sample_net t) = true) /\
  exists pg1 pg2,
    Client.begin_all (Client.calls Client.FirstPaint) sample_page = (Js.Normal tt, pg1) /\
    Client.settle_all sample_net
      [("/db-check", Client.dbOutput); ("/api/hello", Client.helloOutput)] pg1
      = (Js.Normal tt, pg2) /\
    forall t, In t (targets Client.FirstPaint) ->
      loading (Client.node t pg1) /\
      shows (Client.node t pg2) (expected (sample_net t)) /\
      xorb (Dom.contains "success" (Client.node t pg2))
           (Dom.contains "error" (Client.node t pg2)) = true /\
      ~ loading (Client.node t pg2).
Proof.
  assert (Hperm : Permutation
            [("/db-check", Client.dbOutput); ("/api/hello", Client.helloOutput)]
            (Client.calls Client.FirstPaint)) by apply perm_swap.
  assert (Hstd : forall t, standard_outcome (sample_net t) = true)
    by (intros []; reflexivity).
  split; [exact Hperm |]. split; [exact Hstd |].
  exact (every_trigger_ends_rendered Client.FirstPaint sample_net
           [("/db-check", Client.dbOutput); ("/api/hello", Client.helloOutput)]
           sample_page Hperm Hstd).
Defined.

(* ===================================================================== *)
(** ** Further properties of the server *)
(* ===================================================================== *)

(** *** The environment *)

(** X1. Only the six destructured names are read: setting any other
    variable of the environment changes nothing of the configuration. *)
Theorem load_env_ignores_other_variables (env : gmap string string) k v :
  ~ In k read_names ->
  Server.load_env (<[k := v]> env) = Server.load_env env.
Proof.
  intros Hk. unfold Server.load_env.
  rewrite !lookup_insert_ne; [reflexivity | ..];
    intros ->; apply Hk; cbn; tauto.
Qed.

Lemma load_env_ignores_other_variables_witness :
  ~ In "NODE_ENV" read_names /\
  Server.load_env (<["NODE_ENV" := "production"]> {[ "DB_NAME" := "testdb" ]}) =
  Server.load_env {[ "DB_NAME" := "testdb" ]}.
Proof.
  assert (H : ~ In "NODE_ENV" read_names).
  { cbn. intros [H | [H | [H | [H | [H | [H | []]]]]]]; discriminate H. }
  split; [exact H |].
  exact (load_env_ignores_other_variables {[ "DB_NAME" := "testdb" ]}
           "NODE_ENV" "production" H).
Defined.

(** X2. The database a successful probe reports is what DB_NAME holds in
    the environment, the empty text included; it is "postgres" only when
    the variable is absent. *)
Theorem database_field_follows_env (env : gmap string string) probe t log :
  reported_time probe = Js.Normal t ->
  (forall v,
     field (Server.res (snd (Server.db_check (Server.load_env (<["DB_NAME" := v]> env))
                               probe (Server.initial log)))) "database" = Js.Str v) /\
  field (Server.res (snd (Server.db_check (Server.load_env (delete "DB_NAME" env))
                            probe (Server.initial log)))) "database" = Js.Str "postgres".
Proof.
  intros H. split; [intros v |]; rewrite (db_check_success _ _ _ _ H);
    unfold field; cbn; unfold Server.load_env; cbn.
  - now rewrite lookup_insert_eq.
  - now rewrite lookup_delete_eq.
Qed.

Lemma database_field_follows_env_witness :
  reported_time (Resolved (rows_of [row_at (Js.Str "2024-01-01T00:00:00Z")]))
    = Js.Normal (Js.Str "2024-01-01T00:00:00Z") /\
  field (Server.res (snd (Server.db_check
           (Server.load_env (<["DB_NAME" := EmptyString]> ∅))
           (Resolved (rows_of [row_at (Js.Str "2024-01-01T00:00:00Z")]))
           (Server.initial [])))) "database" = Js.Str EmptyString.
Proof.
  split; [reflexivity |].
  exact (proj1 (database_field_follows_env ∅
           (Resolved (rows_of [row_at (Js.Str "2024-01-01T00:00:00Z")]))
           (Js.Str "2024-01-01T00:00:00Z") [] eq_refl) EmptyString).
Defined.

(** *** What the handler reads and writes *)

Lemma db_check_closed cfg probe log :
  Server.res (snd (Server.db_check cfg probe (Server.initial log))) = respond cfg probe /\
  Server.console (snd (Server.db_check cfg probe (Server.initial log))) =
    (log ++ failure_log probe)%list.
Proof.
  unfold respond, failure_log. destruct (reported_time probe) as [t | e] eqn:H.
  - rewrite !(db_check_success _ _ _ _ H). cbn. now rewrite app_nil_r.
  - rewrite !(db_check_failure _ _ _ _ H). cbn zeta.
    now destruct (Js.is_nullish e).
Qed.

(** X3. Of what the probe settled to, the handler uses the server time of
    the first row, or what was thrown on the way to it, and nothing else:
    two probes alike in that are handled alike (further rows, further
    columns and the other fields of the result make no difference). *)
Theorem db_check_reads_only_server_time cfg probe1 probe2 log :
  reported_time probe1 = reported_time probe2 ->
  Server.db_check cfg probe1 (Server.initial log) =
  Server.db_check cfg probe2 (Server.initial log).
Proof.
  intros Heq. destruct (reported_time probe2) as [t | e] eqn:H2.
  - now rewrite (db_check_success _ _ _ _ Heq), (db_check_success _ _ _ _ H2).
  - now rewrite (db_check_failure _ _ _ _ Heq), (db_check_failure _ _ _ _ H2).
Qed.

Lemma db_check_reads_only_server_time_witness :
  reported_time
    (Resolved (Js.Obj [("command", Js.Str "SELECT");
                       ("rows", Js.Arr [Js.Obj [("server_time", Js.Str "2024-01-01T00:00:00Z");
                                                ("version", Js.Num 16)];
                                        Js.Obj [("server_time", Js.Str "1999-12-31T23:59:59Z")]])]))
  = reported_time (Resolved (rows_of [row_at (Js.Str "2024-01-01T00:00:00Z")])) /\
  Server.db_check (Server.load_env ∅)
    (Resolved (Js.Obj [("command", Js.Str "SELECT");
                       ("rows", Js.Arr [Js.Obj [("server_time", Js.Str "2024-01-01T00:00:00Z");
                                                ("version", Js.Num 16)];
                                        Js.Obj [("server_time", Js.Str "1999-12-31T23:59:59Z")]])]))
    (Server.initial []) =
  Server.db_check (Server.load_env ∅)
    (Resolved (rows_of [row_at (Js.Str "2024-01-01T00:00:00Z")]))
    (Server.initial []).
Proof.
  split; [reflexivity |].
  exact (db_check_reads_only_server_time (Server.load_env ∅) _ _ [] eq_refl).
Defined.



(** X5. The handler prints to the console exactly when the probe fails:
    one entry then, the text "Database check failed" with the error that
    was caught; on success the console is left as it was. *)
Theorem db_check_logs_failures_only cfg probe log :
  Server.console (snd (Server.db_check cfg probe (Server.initial log))) =
    (log ++ match reported_time probe with
            | Js.Throw e => [[Js.Str "Database check failed"; e]]
            | Js.Normal _ => []
            end)%list /\
  (Server.console (snd (Server.db_check cfg probe (Server.initial log))) = log
   <-> failed probe = false).
Proof.
  destruct (db_check_closed cfg probe log) as [_ Hc]. rewrite Hc.
  unfold failure_log, failed. split; [reflexivity |].
  destruct (reported_time probe) as [t | e].
  - rewrite app_nil_r. tauto.
  - split; [| discriminate]. intros H.
    apply (f_equal (@List.length _)) in H. rewrite length_app in H. cbn in H. lia.
Qed.

(** X6. A probe that resolved is answered 500 exactly when the result,
    its rows or its first row is undefined or null, and 200 otherwise:
    whatever else the first row is, or lacks, makes no failure. *)
Theorem resolved_probe_status cfg result :
  Express.statusCode (respond cfg (Resolved result)) =
    (if unreadable result then 500 else 200) /\
  (is_Some (Express.body (respond cfg (Resolved result)))) /\
  (unreadable result = false ->
   Express.payload (respond cfg (Resolved result)) =
     Some (ok_envelope (Server.DB_NAME cfg)
             (Js.get_defined
                (Js.get_defined (Js.get_defined result "rows") "0") "server_time"))).
Proof.
  unfold respond, unreadable.
  destruct (reported_time (Resolved result)) as [t | e] eqn:H.
  - rewrite (db_check_success _ _ _ _ H). revert H.
    unfold reported_time, mbind, completion_bind, Js.destructure, Js.get.
    destruct (Js.is_nullish result); [discriminate |].
    destruct (Js.is_nullish (Js.get_defined result "rows")); [discriminate |].
    destruct (Js.is_nullish (Js.get_defined (Js.get_defined result "rows") "0"));
      [discriminate |].
    intros [= <-]. cbn. repeat split. eauto.
  - rewrite (db_check_failure _ _ _ _ H).
    destruct (malformed_throws_TypeError _ _ H) as [text ->]. revert H.
    unfold reported_time, mbind, completion_bind, Js.destructure, Js.get.
    destruct (Js.is_nullish result); [cbn; intros _; repeat split; eauto; discriminate |].
    destruct (Js.is_nullish (Js.get_defined result "rows"));
      [cbn; intros _; repeat split; eauto; discriminate |].
    destruct (Js.is_nullish (Js.get_defined (Js.get_defined result "rows") "0"));
      [cbn; intros _; repeat split; eauto; discriminate | discriminate].
Qed.

Lemma resolved_probe_status_witness :
  unreadable (rows_of [Js.Num 7]) = false /\
  Express.payload (respond (Server.load_env ∅) (Resolved (rows_of [Js.Num 7]))) =
    Some (ok_envelope "postgres" Js.Undefined).
Proof.
  split; [reflexivity |].
  exact (proj2 (proj2 (resolved_probe_status (Server.load_env ∅) (rows_of [Js.Num 7])))
           eq_refl).
Defined.

(** *** Requests in a row *)

Lemma request_closed {Pool : Type}
    (query : string -> Pool -> Settled Js.value * Pool) cfg (p : Server.Proc) :
  exists c,
    Server.request query cfg p =
      ((c, respond cfg (fst (query Server.probe_sql (Server.pool p)))),
       {| Server.pool := snd (query Server.probe_sql (Server.pool p));
          Server.stderr :=
            (Server.stderr p ++
             failure_log (fst (query Server.probe_sql (Server.pool p))))%list |}).
Proof.
  unfold Server.request.
  destruct (query Server.probe_sql (Server.pool p)) as [probe pool'].
  destruct (db_check_closed cfg probe (Server.stderr p)) as [Hr Hc].
  destruct (Server.db_check cfg probe (Server.initial (Server.stderr p))) as [c st].
  cbn in *. exists c. now rewrite Hr, Hc.
Qed.

(** X7. Whatever the pool answers, healthy or not, the i-th of [n]
    requests is answered by what its own probe settled to: a failed probe
    changes nothing for the requests after it.  The console gains the
    entries of the failed probes, in order, and nothing else. *)
Theorem serve_answers_each_probe {Pool : Type}
    (query : string -> Pool -> Settled Js.value * Pool)
    (cfg : Server.Config) (n : nat) (p : Server.Proc) :
  List.map snd (fst (Server.serve query cfg n p)) =
    List.map (respond cfg) (fst (Server.probes query n (Server.pool p))) /\
  Server.stderr (snd (Server.serve query cfg n p)) =
    (Server.stderr p ++
     concat (List.map failure_log (fst (Server.probes query n (Server.pool p)))))%list /\
  Server.pool (snd (Server.serve query cfg n p)) =
    snd (Server.probes query n (Server.pool p)).
Proof.
  revert p. induction n as [| n IH]; intros p.
  - cbn. now rewrite app_nil_r.
  - cbn [Server.serve Server.probes].
    destruct (request_closed query cfg p) as [c Hreq]. rewrite Hreq.
    destruct (query Server.probe_sql (Server.pool p)) as [probe pool1].
    cbn [fst snd].
    specialize (IH {| Server.pool := pool1;
                      Server.stderr := (Server.stderr p ++ failure_log probe)%list |}).
    cbn [Server.pool Server.stderr] in IH.
    destruct (Server.probes query n pool1) as [rest pool2].
    destruct (Server.serve query cfg n _) as [rs p2].
    cbn [fst snd map concat] in *.
    destruct IH as (Hmap & Herr & Hpool).
    rewrite Hmap, Herr, Hpool, app_assoc. auto.
Qed.

(* ===================================================================== *)
(** ** Further properties of the page script *)
(* ===================================================================== *)

(** *** setStatus *)

Lemma remove_status_classes n :
  Dom.remove ["success"; "error"] n =
    {| Dom.classList := other_classes (Dom.classList n);
       Dom.textContent := Dom.textContent n |}.
Proof.
  unfold Dom.remove, other_classes, is_status_class. f_equal.
  apply List.filter_ext. intros c. cbn. now rewrite orb_false_r.
Qed.

Lemma other_classes_free c l :
  is_status_class c = true -> existsb (String.eqb c) (other_classes l) = false.
Proof.
  intros Hc. unfold other_classes. induction l as [| x l IH]; [reflexivity |].
  cbn [List.filter]. destruct (is_status_class x) eqn:Hx; cbn [negb existsb]; [exact IH |].
  rewrite IH, orb_false_r. destruct (String.eqb_spec c x) as [-> | ]; congruence.
Qed.

Lemma other_classes_idem l : other_classes (other_classes l) = other_classes l.
Proof.
  unfold other_classes. induction l as [| x l IH]; [reflexivity |].
  cbn [List.filter]. destruct (is_status_class x) eqn:Hx; cbn [negb List.filter];
    [exact IH | rewrite Hx; cbn; now rewrite IH].
Qed.

Lemma other_classes_app l l' :
  other_classes (l ++ l') = (other_classes l ++ other_classes l')%list.
Proof. apply List.filter_app. Qed.

Lemma add_status_class c l text :
  is_status_class c = true ->
  Dom.add c {| Dom.classList := other_classes l; Dom.textContent := text |} =
    {| Dom.classList := (other_classes l ++ [c])%list; Dom.textContent := text |}.
Proof.
  intros Hc. unfold Dom.add, Dom.contains. cbn [Dom.classList Dom.textContent].
  now rewrite (other_classes_free c l Hc).
Qed.

(** [setStatus] in closed form. *)
Lemma setStatus_closed t status text s pg :
  Js.to_text text = Js.Normal s ->
  Client.setStatus t status text pg =
    (Js.Normal tt,
     Client.with_node t
       (fun n => {| Dom.classList :=
                      (other_classes (Dom.classList n) ++ status_class status)%list;
                    Dom.textContent := s |})
       pg).
Proof.
  intros Hs.
  assert (Hnode : forall n,
    Dom.set_text s
      ((if Js.is_string status "error" then Dom.add "error" else id)
         ((if Js.is_string status "success" then Dom.add "success" else id)
            (Dom.remove ["success"; "error"] n))) =
    {| Dom.classList := (other_classes (Dom.classList n) ++ status_class status)%list;
       Dom.textContent := s |}).
  { intros n. rewrite remove_status_classes. unfold status_class.
    destruct status as [| | | | x | | | | ]; cbn [Js.is_string id];
      try (now rewrite app_nil_r).
    destruct (String.eqb_spec x "success") as [-> | Hne].
    - cbn [String.eqb Ascii.eqb Bool.eqb id]. now rewrite add_status_class.
    - destruct (String.eqb x "error"); cbn [id];
        [now rewrite add_status_class | now rewrite app_nil_r]. }
  unfold Client.setStatus, Client.when, Client.update, eval, modify,
    mbind, M_bind, mret, M_ret.
  rewrite Hs.
  destruct t, (Js.is_string status "success"), (Js.is_string status "error");
    cbn in *; rewrite <- Hnode; reflexivity.
Qed.

Lemma status_class_cases status :
  status_class status = [] \/
  exists c, status_class status = [c] /\ is_status_class c = true /\
            Js.is_string status c = true.
Proof.
  unfold status_class.
  destruct (Js.is_string status "success") eqn:Hs; [right; exists "success"; auto |].
  destruct (Js.is_string status "error") eqn:He; [right; exists "error"; auto |].
  now left.
Qed.

Lemma is_status_class_cases c :
  is_status_class c = true -> c = "success" \/ c = "error".
Proof.
  unfold is_status_class.
  destruct (String.eqb_spec c "success"); [now left |].
  destruct (String.eqb_spec c "error"); [now right | discriminate].
Qed.

Lemma contains_status_class status c l :
  is_status_class c = true ->
  existsb (String.eqb c) (other_classes l ++ status_class status) =
  Js.is_string status c.
Proof.
  intros Hc. rewrite existsb_app, (other_classes_free c l Hc). cbn [orb].
  unfold status_class.
  destruct status as [| | | | x | | | | ]; try reflexivity. cbn [Js.is_string].
  destruct (is_status_class_cases c Hc) as [-> | ->].
  - destruct (String.eqb_spec x "success") as [-> | Hne]; [reflexivity |].
    destruct (String.eqb x "error"); cbn; [| reflexivity].
    reflexivity.
  - destruct (String.eqb_spec x "success") as [-> | Hne]; [reflexivity |].
    destruct (String.eqb_spec x "error") as [-> | Hne']; [reflexivity | reflexivity].
Qed.

(** X8. [setStatus] writes the text and makes the status classes of the
    node say what [status] says: "success" is on the node exactly when
    [status] is "success", "error" exactly when it is "error" (so never
    both, and neither for [null]), whatever they were before.  The other
    classes stay, in their order; the other output and the console are
    not touched. *)
Theorem setStatus_sets_status_class t status text s pg :
  Js.to_text text = Js.Normal s ->
  exists pg',
    Client.setStatus t status text pg = (Js.Normal tt, pg') /\
    Dom.textContent (Client.node t pg') = s /\
    (forall c, is_status_class c = true ->
       Dom.contains c (Client.node t pg') = Js.is_string status c) /\
    other_classes (Dom.classList (Client.node t pg')) =
      other_classes (Dom.classList (Client.node t pg)) /\
    (forall t', t' <> t -> Client.node t' pg' = Client.node t' pg) /\
    Client.console pg' = Client.console pg.
Proof.
  intros Hs. eexists. split; [apply (setStatus_closed _ _ _ _ _ Hs) |].
  rewrite node_with_node_same. cbn [Dom.textContent Dom.classList].
  split; [reflexivity |]. split; [| split; [| split]].
  - intros c Hc. unfold Dom.contains. cbn [Dom.classList].
    now apply contains_status_class.
  - rewrite other_classes_app, other_classes_idem.
    destruct (status_class_cases status) as [-> | (c & -> & Hc & _)].
    + now rewrite app_nil_r.
    + unfold other_classes at 2. cbn. rewrite Hc. cbn. now rewrite app_nil_r.
  - intros t' Hne. now apply node_with_node_other.
  - now destruct t.
Qed.

Lemma setStatus_sets_status_class_witness :
  Js.to_text (Js.Str "ready") = Js.Normal "ready" /\
  exists pg',
    Client.setStatus Client.helloOutput (Js.Str "success") (Js.Str "ready") sample_page
      = (Js.Normal tt, pg') /\
    Dom.textContent (Client.node Client.helloOutput pg') = "ready" /\
    (forall c, is_status_class c = true ->
       Dom.contains c (Client.node Client.helloOutput pg') =
       Js.is_string (Js.Str "success") c).
Proof.
  split; [reflexivity |].
  destruct (setStatus_sets_status_class Client.helloOutput (Js.Str "success")
              (Js.Str "ready") "ready" sample_page eq_refl)
    as (pg' & Hrun & Htext & Hcls & _).
  exists pg'. repeat split; assumption.
Defined.

(** *** fetchJSON *)

Lemma render_success text n :
  Dom.set_text text (Dom.add "success" (Dom.remove ["success"; "error"] n)) =
    {| Dom.classList := (other_classes (Dom.classList n) ++ ["success"])%list;
       Dom.textContent := text |}.
Proof. now rewrite remove_status_classes, add_status_class. Qed.

Lemma render_failure text n :
  Dom.set_text text (Dom.add "error" (Dom.remove ["success"; "error"] n)) =
    {| Dom.classList := (other_classes (Dom.classList n) ++ ["error"])%list;
       Dom.textContent := text |}.
Proof. now rewrite remove_status_classes, add_status_class. Qed.

Ltac close_settle :=
  match goal with
  | |- context [Client.with_node ?t] =>
      destruct t; cbn [Client.with_node Client.hello_node Client.db_node Client.console];
      rewrite ?render_success, ?render_failure, ?app_nil_r; reflexivity
  end.

(** Once the request has settled, in closed form. *)
Lemma settle_closed url t net pg :
  standard_outcome net = true ->
  Client.fetchJSON_settle url t net pg =
    (Js.Normal tt,
     Client.with_node t
       (fun n => {| Dom.classList :=
                      (other_classes (Dom.classList n) ++
                       [rendering_class (expected net)])%list;
                    Dom.textContent := rendering_text (expected net) |})
       {| Client.hello_node := Client.hello_node pg;
          Client.db_node := Client.db_node pg;
          Client.console := (Client.console pg ++ fetch_log url net)%list |}).
Proof.
  unfold standard_outcome, expected, fetch_log, caught.
  destruct net as [response | e].
  - destruct (Client.ok response) eqn:Hok.
    + destruct (Client.json response) as [payload | e] eqn:Hjson.
      * intros _. step_settle. rewrite Hok, Hjson, setStatus_success. close_settle.
      * destruct e; try discriminate. intros _.
        step_settle. rewrite Hok, Hjson, catch_run. close_settle.
    + intros _. step_settle. rewrite Hok, catch_run. close_settle.
  - destruct e; try discriminate. intros _. step_settle. rewrite catch_run.
    close_settle.
Qed.

Lemma begin_closed t pg :
  Client.fetchJSON_begin t pg =
    (Js.Normal tt,
     Client.with_node t
       (fun n => {| Dom.classList := other_classes (Dom.classList n);
                    Dom.textContent := Client.loading_text |})
       pg).
Proof.
  rewrite begin_run. destruct t; cbn; now rewrite remove_status_classes.
Qed.

Lemma fetchJSON_closed url t net pg :
  standard_outcome net = true ->
  Client.fetchJSON url t net pg =
    (Js.Normal tt,
     Client.with_node t
       (fun n => {| Dom.classList :=
                      (other_classes (Dom.classList n) ++
                       [rendering_class (expected net)])%list;
                    Dom.textContent := rendering_text (expected net) |})
       {| Client.hello_node := Client.hello_node pg;
          Client.db_node := Client.db_node pg;
          Client.console := (Client.console pg ++ fetch_log url net)%list |}).
Proof.
  intros Hstd. unfold Client.fetchJSON, mbind, M_bind.
  rewrite begin_closed, (settle_closed _ _ _ _ Hstd).
  destruct t; cbn [Client.with_node Client.hello_node Client.db_node
                   Client.console Dom.classList Dom.textContent];
    now rewrite other_classes_idem.
Qed.

Lemma rendering_class_is_status r : is_status_class (rendering_class r) = true.
Proof. now destruct r. Qed.

(** X9. A fetch prints to the console exactly when it fails: one entry
    then, "Failed to fetch" with the URL and the error that was caught;
    a fetch that succeeds prints nothing.  Either way the other output
    element keeps its classes and its text. *)
Theorem fetchJSON_logs_failures_only url t net pg :
  standard_outcome net = true ->
  Client.console (snd (Client.fetchJSON url t net pg)) =
    (Client.console pg ++
     match caught net with
     | Some e => [[Js.Str ("Failed to fetch " +:+ url); e]]
     | None => []
     end)%list /\
  (caught net = None <-> exists text, expected net = Success text) /\
  forall t', t' <> t ->
    Client.node t' (snd (Client.fetchJSON url t net pg)) = Client.node t' pg.
Proof.
  intros Hstd. rewrite (fetchJSON_closed _ _ _ _ Hstd). cbn [snd].
  split; [now destruct t |]. split.
  - unfold caught, expected. destruct net as [response | e].
    + destruct (Client.ok response).
      * destruct (Client.json response); split; eauto; try discriminate.
        intros [? [=]].
      * split; [discriminate | intros [? [=]]].
    + split; [discriminate | intros [? [=]]].
  - intros t' Hne. rewrite node_with_node_other by assumption. now destruct t'.
Qed.

Lemma fetchJSON_logs_failures_only_witness :
  standard_outcome (sample_net Client.dbOutput) = true /\
  Client.console
    (snd (Client.fetchJSON "/db-check" Client.dbOutput (sample_net Client.dbOutput)
            sample_page)) =
    [[Js.Str "Failed to fetch /db-check";
      Js.Err "Error" "500 Internal Server Error" []]].
Proof.
  split; [reflexivity |].
  exact (proj1 (fetchJSON_logs_failures_only "/db-check" Client.dbOutput
                  (sample_net Client.dbOutput) sample_page eq_refl)).
Defined.

(** X10. On a response whose status is not a 2xx the body is never read:
    two such responses with the same status and status text are shown
    alike, whatever their bodies hold or fail to parse to. *)
Theorem non_ok_body_is_not_read url t r1 r2 pg :
  Client.ok r1 = false ->
  Client.status r1 = Client.status r2 ->
  Client.statusText r1 = Client.statusText r2 ->
  Client.fetchJSON url t (Resolved r1) pg = Client.fetchJSON url t (Resolved r2) pg /\
  shows (Client.node t (snd (Client.fetchJSON url t (Resolved r1) pg)))
    (Failure (Js.decimal (Client.status r1) +:+ " " +:+ Client.statusText r1)).
Proof.
  intros Hok Hst Htx.
  assert (Hok2 : Client.ok r2 = false) by (unfold Client.ok in *; now rewrite <- Hst).
  assert (Hstd1 : standard_outcome (Resolved r1) = true)
    by (unfold standard_outcome; now rewrite Hok).
  assert (Hstd2 : standard_outcome (Resolved r2) = true)
    by (unfold standard_outcome; now rewrite Hok2).
  rewrite (fetchJSON_closed _ _ _ _ Hstd1), (fetchJSON_closed _ _ _ _ Hstd2).
  unfold expected, fetch_log, caught. rewrite Hok, Hok2, Hst, Htx.
  split; [reflexivity |].
  cbn [snd]. rewrite node_with_node_same. unfold shows, Dom.contains.
  cbn [Dom.classList Dom.textContent rendering_class rendering_text].
  rewrite !existsb_app, !other_classes_free by reflexivity. now cbn.
Qed.

Lemma non_ok_body_is_not_read_witness :
  Client.ok {| Client.status := 500; Client.statusText := "Internal Server Error";
               Client.json := Resolved (error_envelope (Js.Str "connect ECONNREFUSED")) |}
    = false /\
  Client.fetchJSON "/db-check" Client.dbOutput
    (Resolved {| Client.status := 500; Client.statusText := "Internal Server Error";
                 Client.json := Resolved (error_envelope (Js.Str "connect ECONNREFUSED")) |})
    sample_page =
  Client.fetchJSON "/db-check" Client.dbOutput
    (Resolved {| Client.status := 500; Client.statusText := "Internal Server Error";
                 Client.json := Rejected (Js.Err "SyntaxError" "Unexpected end of JSON input" []) |})
    sample_page.
Proof.
  split; [reflexivity |].
  exact (proj1 (non_ok_body_is_not_read "/db-check" Client.dbOutput
           {| Client.status := 500; Client.statusText := "Internal Server Error";
              Client.json := Resolved (error_envelope (Js.Str "connect ECONNREFUSED")) |}
           {| Client.status := 500; Client.statusText := "Internal Server Error";
              Client.json := Rejected (Js.Err "SyntaxError" "Unexpected end of JSON input" []) |}
           sample_page eq_refl eq_refl eq_refl)).
Defined.

(** X11. What an earlier fetch showed leaves no trace on the element once
    a later one has ended, be it a second request that settles after the
    first or a whole new fetch: the element is as if only the later one
    had run. *)
Theorem later_fetch_overwrites url1 url2 t net1 net2 pg :
  standard_outcome net1 = true ->
  standard_outcome net2 = true ->
  Client.node t
    (snd (Client.fetchJSON_settle url2 t net2
            (snd (Client.fetchJSON_settle url1 t net1 pg)))) =
  Client.node t (snd (Client.fetchJSON_settle url2 t net2 pg)) /\
  Client.node t
    (snd (Client.fetchJSON url2 t net2 (snd (Client.fetchJSON url1 t net1 pg)))) =
  Client.node t (snd (Client.fetchJSON url2 t net2 pg)).
Proof.
  intros H1 H2.
  rewrite !(settle_closed _ _ _ _ H1), !(settle_closed _ _ _ _ H2).
  rewrite !(fetchJSON_closed _ _ _ _ H1), !(fetchJSON_closed _ _ _ _ H2).
  cbn [snd]. rewrite !node_with_node_same.
  assert (Hcls : forall l,
    other_classes (other_classes l ++ [rendering_class (expected net1)]) =
    other_classes l).
  { intros l. rewrite other_classes_app, other_classes_idem.
    unfold other_classes at 2. cbn. rewrite rendering_class_is_status. cbn.
    now rewrite app_nil_r. }
  destruct t; cbn [Client.node Client.with_node Client.hello_node Client.db_node
                   Dom.classList Dom.textContent]; now rewrite Hcls.
Qed.

Lemma later_fetch_overwrites_witness :
  standard_outcome (sample_net Client.dbOutput) = true /\
  standard_outcome (sample_net Client.helloOutput) = true /\
  Client.node Client.dbOutput
    (snd (Client.fetchJSON "/db-check" Client.dbOutput (sample_net Client.helloOutput)
            (snd (Client.fetchJSON "/db-check" Client.dbOutput
                    (sample_net Client.dbOutput) sample_page)))) =
  Client.node Client.dbOutput
    (snd (Client.fetchJSON "/db-check" Client.dbOutput (sample_net Client.helloOutput)
            sample_page)).
Proof.
  split; [reflexivity |]. split; [reflexivity |].
  exact (proj2 (later_fetch_overwrites "/db-check" "/db-check" Client.dbOutput
                  (sample_net Client.dbOutput) (sample_net Client.helloOutput)
                  sample_page eq_refl eq_refl)).
Defined.

(** *** Several requests in flight *)




(** X13. A trigger changes only the outputs it fetches for: a click on one
    button leaves the classes and the text of the other output as they
    were, whatever its request comes to. *)
Theorem trigger_touches_only_its_outputs tr net order pg t :
  Permutation order (Client.calls tr) ->
  (forall t', standard_outcome (net t') = true) ->
  ~ In t (targets tr) ->
  Client.node t
    (snd (Client.settle_all net order (snd (Client.begin_all (Client.calls tr) pg)))) =
  Client.node t pg.
Proof.
  intros Hperm Hstd Hout.
  destruct (begin_all_run (Client.calls tr) pg) as (pg1 & Hbegin & _ & Hframe1).
  destruct (settle_all_run net order pg1 Hstd) as (pg2 & Hsettle & _ & Hframe2).
  rewrite Hbegin. cbn [snd]. rewrite Hsettle. cbn [snd].
  rewrite Hframe2, Hframe1; [reflexivity | exact Hout |].
  intros Hin. apply Hout. unfold targets.
  eapply Permutation_in; [| exact Hin]. now apply Permutation_map.
Qed.

Lemma trigger_touches_only_its_outputs_witness :
  Permutation [("/api/hello", Client.helloOutput)] (Client.calls Client.ClickHello) /\
  (forall t', standard_outcome (sample_net t') = true) /\
  ~ In Client.dbOutput (targets Client.ClickHello) /\
  Client.node Client.dbOutput
    (snd (Client.settle_all sample_net [("/api/hello", Client.helloOutput)]
            (snd (Client.begin_all (Client.calls Client.ClickHello) sample_page)))) =
  Client.node Client.dbOutput sample_page.
Proof.
  assert (Hperm : Permutation [("/api/hello", Client.helloOutput)]
                    (Client.calls Client.ClickHello)) by apply Permutation_refl.
  assert (Hstd : forall t', standard_outcome (sample_net t') = true)
    by (intros []; reflexivity).
  assert (Hout : ~ In Client.dbOutput (targets Client.ClickHello)).
  { cbn. intros [H | []]. discriminate H. }
  split; [exact Hperm |]. split; [exact Hstd |]. split; [exact Hout |].
  exact (trigger_touches_only_its_outputs Client.ClickHello sample_net
           [("/api/hello", Client.helloOutput)] sample_page Client.dbOutput
           Hperm Hstd Hout).
Defined.

(* ===================================================================== *)
(** ** The two programs together *)
(* ===================================================================== *)

(** X14. When the probe fails, the page does not show the message the
    server put in its envelope: a response that carries the status the
    handler set is shown as an error whose text is "500" and the status
    text, whatever the failure was. *)
Theorem failed_probe_shows_status_line cfg probe e response url t pg :
  reported_time probe = Js.Throw e ->
  Client.status response = Express.statusCode (respond cfg probe) ->
  fst (Client.fetchJSON url t (Resolved response) pg) = Js.Normal tt /\
  shows (Client.node t (snd (Client.fetchJSON url t (Resolved response) pg)))
    (Failure ("500 " +:+ Client.statusText response)).
Proof.
  intros Hfail Hstatus.
  assert (H500 : Client.status response = 500).
  { rewrite Hstatus. unfold respond. rewrite (db_check_failure _ _ _ _ Hfail).
    cbn zeta. now destruct (Js.is_nullish e). }
  assert (Hok : Client.ok response = false)
    by (unfold Client.ok; now rewrite H500).
  assert (Hstd : standard_outcome (Resolved response) = true)
    by (unfold standard_outcome; now rewrite Hok).
  rewrite (fetchJSON_closed _ _ _ _ Hstd). cbn [fst snd].
  split; [reflexivity |].
  rewrite node_with_node_same. unfold expected. rewrite Hok, H500.
  unfold shows, Dom.contains.
  cbn [Dom.classList Dom.textContent rendering_class rendering_text].
  rewrite !existsb_app, !other_classes_free by reflexivity. now cbn.
Qed.

Lemma failed_probe_shows_status_line_witness :
  reported_time (Rejected (Js.Err "Error" "connect ECONNREFUSED 127.0.0.1:5432" []))
    = Js.Throw (Js.Err "Error" "connect ECONNREFUSED 127.0.0.1:5432" []) /\
  Client.status sample_response =
    Express.statusCode
      (respond (Server.load_env ∅)
         (Rejected (Js.Err "Error" "connect ECONNREFUSED 127.0.0.1:5432" []))) /\
  shows
    (Client.node Client.dbOutput
       (snd (Client.fetchJSON "/db-check" Client.dbOutput
               (Resolved sample_response) sample_page)))
    (Failure "500 Internal Server Error").
Proof.
  split; [reflexivity |]. split; [reflexivity |].
  exact (proj2 (failed_probe_shows_status_line (Server.load_env ∅)
           (Rejected (Js.Err "Error" "connect ECONNREFUSED 127.0.0.1:5432" []))
           (Js.Err "Error" "connect ECONNREFUSED 127.0.0.1:5432" [])
           sample_response "/db-check" Client.dbOutput sample_page
           eq_refl eq_refl)).
Defined.
